(** * SimpleMicroservice: the in-memory CRUD core of [main.py]

    A shallow embedding of the request handlers of [SimpleMicroservices/main.py]
    and of the pydantic models of [SimpleMicroservices/models/my_models.py].

    - Python [str] is [string], a sequence of one-byte characters whose [len]
      is the number of characters; Python [int] is [Z]; a [UUID] is its 128-bit
      integer value.
    - A Python [dict] is an association list with unique keys kept in insertion
      order: [d[k] = v] replaces the value in place when [k] is present and
      appends the entry otherwise, and [d.values()] lists the values in that
      order.
    - The four module-level dictionaries [persons], [addresses], [courses] and
      [enrollments] are the fields of one [store] record that every handler
      receives and returns.
    - A handler that raises returns the exception together with the store as it
      is at the [raise].
    - A pydantic model is a record; its constructor on keyword arguments is
      [validate], which returns [None] for a ValidationError, and
      [model_dump()] is the dictionary of its fields.
    - The models of [models/person.py] and [models/address.py] are not among
      the sources; they follow the data model of the specification and the
      attributes that [main.py] reads.
    - Handlers are functions of their parsed parameters: URL routing, the
      health endpoints and the root endpoint are left out. *)

From Stdlib Require Import ZArith NArith List String Ascii Bool Lia.
From Stdlib Require Import DecimalString DecimalZ.
Import ListNotations.

Local Open Scope string_scope.
Local Open Scope list_scope.
Local Open Scope Z_scope.

Set Implicit Arguments.

(* ------------------------------------------------------------------------- *)
(** * Strings *)

(** [c in s] for a one-character [c]. *)
Fixpoint contains (c : ascii) (s : string) : bool :=
  match s with
  | EmptyString => false
  | String a s' => Ascii.eqb a c || contains c s'
  end.

Definition pipe : ascii := "|"%char.

(** [str(z)] for a Python [int]: decimal digits, with a leading minus sign for
    a negative number. *)
Definition str_int (z : Z) : string :=
  NilEmpty.string_of_int (Z.to_int z).

(** [len(s)] *)
Definition len (s : string) : Z := Z.of_nat (String.length s).

(* ------------------------------------------------------------------------- *)
(** * Composite key of an enrollment *)

(** main.py, [_enroll_key]: [f"{uni}|{course_code}|{year}|{term}"]. *)
Definition _enroll_key (uni course_code : string) (year : Z) (term : string)
  : string :=
  (uni ++ "|" ++ course_code ++ "|" ++ str_int year ++ "|" ++ term)%string.

(* ------------------------------------------------------------------------- *)
(** * Python dictionaries *)

(** Keys of a dictionary: a type with a boolean equality that decides [=]. *)
Class Hashable (K : Type) := {
  key_eqb : K -> K -> bool;
  key_eqb_spec : forall x y, reflect (x = y) (key_eqb x y)
}.

#[export] Instance Hashable_string : Hashable string :=
  {| key_eqb := String.eqb; key_eqb_spec := String.eqb_spec |}.

#[export] Instance Hashable_N : Hashable N :=
  {| key_eqb := N.eqb; key_eqb_spec := N.eqb_spec |}.

Module PyDict.
Section Dict.
Context {K V : Type} `{Hashable K}.

Definition t := list (K * V).

Definition empty : t := [].

(** [d.get(k)] *)
Fixpoint get (k : K) (d : t) : option V :=
  match d with
  | [] => None
  | (k', v) :: d' => if key_eqb k k' then Some v else get k d'
  end.

(** [k in d] *)
Definition mem (k : K) (d : t) : bool :=
  match get k d with Some _ => true | None => false end.

(** [d[k] = v] *)
Fixpoint set (k : K) (v : V) (d : t) : t :=
  match d with
  | [] => [(k, v)]
  | (k', v') :: d' =>
      if key_eqb k k' then (k', v) :: d' else (k', v') :: set k v d'
  end.

(** [d.update(u)]: the entries of [u] are assigned in their order. *)
Definition update (d u : t) : t :=
  fold_left (fun acc kv => set (fst kv) (snd kv) acc) u d.

(** [list(d.keys())] and [list(d.values())] *)
Definition keys (d : t) : list K := map fst d.
Definition values (d : t) : list V := map snd d.

(** The entries of a dictionary have pairwise different keys. *)
Definition wf (d : t) : Prop := NoDup (keys d).

End Dict.
Arguments t : clear implicits.
End PyDict.

Abbreviation dict := PyDict.t.

(* ------------------------------------------------------------------------- *)
(** * Values and keyword dictionaries *)

(** A [UUID] is compared and hashed by its 128-bit integer. *)
Definition UUID := N.

(** Modelled from the spec: models/address.py is not among the sources. An
    Address has a generated [id] and the attributes street, city, state,
    postal_code and country; [AddressCreate] (whose [id] [create_address]
    reads) and [AddressRead] carry the same fields, and the addresses embedded
    in a Person are values of this shape. *)
Module Address.
Record t := mk {
  id : UUID;
  street : string;
  city : string;
  state : string;
  postal_code : string;
  country : string
}.
End Address.

(** The values found in a request body and in the result of [model_dump()],
    after pydantic has coerced them to the type the field declares. *)
Inductive value :=
| VNone
| VStr (s : string)
| VInt (z : Z)
| VUuid (u : UUID)
| VAddresses (l : list Address.t).

(** A JSON object, the keyword arguments [**d] given to a model constructor,
    the result of [model_dump()]. *)
Definition fields := dict string value.

Notation "x <- e ;; k" :=
  (match e with Some x => k | None => None end)
  (at level 61, e at next level, right associativity).

(** A required [str] field. *)
Definition get_str (k : string) (d : fields) : option string :=
  match PyDict.get k d with Some (VStr s) => Some s | _ => None end.

(** A required [int] field. *)
Definition get_int (k : string) (d : fields) : option Z :=
  match PyDict.get k d with Some (VInt z) => Some z | _ => None end.

(** A [UUID] field with [default_factory=uuid4]; [uuid4] is the value the
    factory returns when it is called. *)
Definition get_uuid (uuid4 : UUID) (k : string) (d : fields) : option UUID :=
  match PyDict.get k d with
  | None => Some uuid4
  | Some (VUuid u) => Some u
  | Some _ => None
  end.

(** A required list of embedded addresses. *)
Definition get_addresses (k : string) (d : fields) : option (list Address.t) :=
  match PyDict.get k d with Some (VAddresses l) => Some l | _ => None end.

(** A field of an Update model, declared [Optional[...] = None]: either never
    assigned ([Unset]) or assigned, possibly to [None]. *)
Inductive upd (A : Type) :=
| Unset
| Assigned (v : option A).
Arguments Unset {A}.

Definition upd_value {A : Type} (inj : A -> value) (u : upd A) : option value :=
  match u with
  | Unset => None
  | Assigned None => Some VNone
  | Assigned (Some a) => Some (inj a)
  end.

(** Parsing an optional field of a request body: absent, [null], or a value of
    the declared type; [None] is a type mismatch. *)
Definition get_upd_str (k : string) (d : fields) : option (upd string) :=
  match PyDict.get k d with
  | None => Some Unset
  | Some VNone => Some (Assigned None)
  | Some (VStr s) => Some (Assigned (Some s))
  | Some _ => None
  end.

Definition get_upd_addresses (k : string) (d : fields)
  : option (upd (list Address.t)) :=
  match PyDict.get k d with
  | None => Some Unset
  | Some VNone => Some (Assigned None)
  | Some (VAddresses l) => Some (Assigned (Some l))
  | Some _ => None
  end.

(** [model_dump(exclude_unset=True)]: the assigned fields, in declaration
    order. *)
Fixpoint exclude_unset (l : list (string * option value)) : fields :=
  match l with
  | [] => []
  | (k, Some v) :: l' => (k, v) :: exclude_unset l'
  | (_, None) :: l' => exclude_unset l'
  end.

(* ------------------------------------------------------------------------- *)
(** * Models of models/my_models.py *)

Module Course.
Record t := mk {
  code : string;
  title : string;
  instructor : string;
  credits : Z;
  dept_id : string
}.

(** The constructor [Course] on keyword arguments [d]: every field is
    required; [credits] has [ge=0, le=6].
    [None] is pydantic's ValidationError. *)
Definition validate (d : fields) : option t :=
  code <- get_str "code" d ;;
  title <- get_str "title" d ;;
  instructor <- get_str "instructor" d ;;
  credits <- get_int "credits" d ;;
  dept_id <- get_str "dept_id" d ;;
  if (0 <=? credits) && (credits <=? 6)
  then Some (mk code title instructor credits dept_id)
  else None.

Definition model_dump (c : t) : fields :=
  [("code", VStr (code c)); ("title", VStr (title c));
   ("instructor", VStr (instructor c)); ("credits", VInt (credits c));
   ("dept_id", VStr (dept_id c))].
End Course.

Module Enrollment.
Record t := mk {
  uni : string;
  course_code : string;
  year : Z;
  term : string;
  status : string
}.

(** The constructor [Enrollment] on keyword arguments [d]: every field is
    required; [uni] has [min_length=2]. *)
Definition validate (d : fields) : option t :=
  uni <- get_str "uni" d ;;
  course_code <- get_str "course_code" d ;;
  year <- get_int "year" d ;;
  term <- get_str "term" d ;;
  status <- get_str "status" d ;;
  if 2 <=? len uni
  then Some (mk uni course_code year term status)
  else None.

Definition model_dump (e : t) : fields :=
  [("uni", VStr (uni e)); ("course_code", VStr (course_code e));
   ("year", VInt (year e)); ("term", VStr (term e));
   ("status", VStr (status e))].
End Enrollment.

(* ------------------------------------------------------------------------- *)
(** * Models of models/address.py and models/person.py *)

(** Modelled from the spec: the constructor and [model_dump()] of
    [AddressCreate] and [AddressRead] (models/address.py is not among the
    sources). Every attribute is a required [str]; the [id] is generated when
    the keyword arguments do not give one. *)
Definition Address_validate (uuid4 : UUID) (d : fields) : option Address.t :=
  id <- get_uuid uuid4 "id" d ;;
  street <- get_str "street" d ;;
  city <- get_str "city" d ;;
  state <- get_str "state" d ;;
  postal_code <- get_str "postal_code" d ;;
  country <- get_str "country" d ;;
  Some (Address.mk id street city state postal_code country).

Definition Address_model_dump (a : Address.t) : fields :=
  [("id", VUuid (Address.id a)); ("street", VStr (Address.street a));
   ("city", VStr (Address.city a)); ("state", VStr (Address.state a));
   ("postal_code", VStr (Address.postal_code a));
   ("country", VStr (Address.country a))].

Module AddressCreate.
Abbreviation t := Address.t.
Abbreviation validate := Address_validate.
Abbreviation model_dump := Address_model_dump.
End AddressCreate.

Module AddressRead.
Abbreviation t := Address.t.
Abbreviation validate := Address_validate.
Abbreviation model_dump := Address_model_dump.
End AddressRead.

(** Modelled from the spec: [AddressUpdate] (models/address.py is not among
    the sources). Every attribute is optional and remembers whether it was
    supplied; the identity is not a field of the model, so an [id] in the
    request body is ignored. *)
Module AddressUpdate.
Record t := mk {
  street : upd string;
  city : upd string;
  state : upd string;
  postal_code : upd string;
  country : upd string
}.

Definition validate (d : fields) : option t :=
  street <- get_upd_str "street" d ;;
  city <- get_upd_str "city" d ;;
  state <- get_upd_str "state" d ;;
  postal_code <- get_upd_str "postal_code" d ;;
  country <- get_upd_str "country" d ;;
  Some (mk street city state postal_code country).

Definition model_dump_exclude_unset (u : t) : fields :=
  exclude_unset
    [("street", upd_value VStr (street u));
     ("city", upd_value VStr (city u));
     ("state", upd_value VStr (state u));
     ("postal_code", upd_value VStr (postal_code u));
     ("country", upd_value VStr (country u))].
End AddressUpdate.

(** Modelled from the spec: a date is kept as its ISO-8601 text, which is what
    [str] returns for it. *)
Definition date := string.
Definition str_date (d : date) : string := d.

(** Modelled from the spec: [PersonCreate] (models/person.py is not among the
    sources): the attributes of a Person without the identity. *)
Module PersonCreate.
Record t := mk {
  uni : string;
  first_name : string;
  last_name : string;
  email : string;
  phone : string;
  birth_date : date;
  addresses : list Address.t
}.

Definition validate (d : fields) : option t :=
  uni <- get_str "uni" d ;;
  first_name <- get_str "first_name" d ;;
  last_name <- get_str "last_name" d ;;
  email <- get_str "email" d ;;
  phone <- get_str "phone" d ;;
  birth_date <- get_str "birth_date" d ;;
  addresses <- get_addresses "addresses" d ;;
  Some (mk uni first_name last_name email phone birth_date addresses).

Definition model_dump (p : t) : fields :=
  [("uni", VStr (uni p)); ("first_name", VStr (first_name p));
   ("last_name", VStr (last_name p)); ("email", VStr (email p));
   ("phone", VStr (phone p)); ("birth_date", VStr (birth_date p));
   ("addresses", VAddresses (addresses p))].
End PersonCreate.

(** Modelled from the spec: [PersonRead] (models/person.py is not among the
    sources): the attributes of [PersonCreate] and the identity, which is
    generated when the keyword arguments do not give one. *)
Module PersonRead.
Record t := mk {
  id : UUID;
  uni : string;
  first_name : string;
  last_name : string;
  email : string;
  phone : string;
  birth_date : date;
  addresses : list Address.t
}.

Definition validate (uuid4 : UUID) (d : fields) : option t :=
  id <- get_uuid uuid4 "id" d ;;
  uni <- get_str "uni" d ;;
  first_name <- get_str "first_name" d ;;
  last_name <- get_str "last_name" d ;;
  email <- get_str "email" d ;;
  phone <- get_str "phone" d ;;
  birth_date <- get_str "birth_date" d ;;
  addresses <- get_addresses "addresses" d ;;
  Some (mk id uni first_name last_name email phone birth_date addresses).

Definition model_dump (p : t) : fields :=
  [("id", VUuid (id p)); ("uni", VStr (uni p));
   ("first_name", VStr (first_name p)); ("last_name", VStr (last_name p));
   ("email", VStr (email p)); ("phone", VStr (phone p));
   ("birth_date", VStr (birth_date p));
   ("addresses", VAddresses (addresses p))].
End PersonRead.

(** Modelled from the spec: [PersonUpdate] (models/person.py is not among the
    sources): every attribute optional, no identity field. *)
Module PersonUpdate.
Record t := mk {
  uni : upd string;
  first_name : upd string;
  last_name : upd string;
  email : upd string;
  phone : upd string;
  birth_date : upd date;
  addresses : upd (list Address.t)
}.

Definition validate (d : fields) : option t :=
  uni <- get_upd_str "uni" d ;;
  first_name <- get_upd_str "first_name" d ;;
  last_name <- get_upd_str "last_name" d ;;
  email <- get_upd_str "email" d ;;
  phone <- get_upd_str "phone" d ;;
  birth_date <- get_upd_str "birth_date" d ;;
  addresses <- get_upd_addresses "addresses" d ;;
  Some (mk uni first_name last_name email phone birth_date addresses).

Definition model_dump_exclude_unset (u : t) : fields :=
  exclude_unset
    [("uni", upd_value VStr (uni u));
     ("first_name", upd_value VStr (first_name u));
     ("last_name", upd_value VStr (last_name u));
     ("email", upd_value VStr (email u));
     ("phone", upd_value VStr (phone u));
     ("birth_date", upd_value VStr (birth_date u));
     ("addresses", upd_value VAddresses (addresses u))].
End PersonUpdate.

(* ------------------------------------------------------------------------- *)
(** * The in-memory store and the outcome of a handler *)

(** main.py, lines 26-27 and 38-39: the four module-level dictionaries. *)
Record store := mkStore {
  persons : dict UUID PersonRead.t;
  addresses : dict UUID AddressRead.t;
  courses : dict string Course.t;          (* key = course.code *)
  enrollments : dict string Enrollment.t   (* key = uni|course_code|year|term *)
}.

Definition empty_store : store :=
  mkStore PyDict.empty PyDict.empty PyDict.empty PyDict.empty.

Definition set_persons (d : dict UUID PersonRead.t) (s : store) : store :=
  mkStore d (addresses s) (courses s) (enrollments s).
Definition set_addresses (d : dict UUID AddressRead.t) (s : store) : store :=
  mkStore (persons s) d (courses s) (enrollments s).
Definition set_courses (d : dict string Course.t) (s : store) : store :=
  mkStore (persons s) (addresses s) d (enrollments s).
Definition set_enrollments (d : dict string Enrollment.t) (s : store) : store :=
  mkStore (persons s) (addresses s) (courses s) d.

(** What a handler produces: its return value with the status code of its
    route, or the exception it raises. *)
Inductive response (A : Type) :=
| Ok (status_code : Z) (body : A)
| HTTPException (status_code : Z) (detail : string)
| ValidationError
| KeyError.
Arguments HTTPException {A}.
Arguments ValidationError {A}.
Arguments KeyError {A}.

(** [return d[k]] in a route whose status code is [status_code]. *)
Definition subscript {K V : Type} `{Hashable K}
  (status_code : Z) (d : dict K V) (k : K) : response V :=
  match PyDict.get k d with
  | Some v => Ok status_code v
  | None => KeyError
  end.

(** [if q is not None: results = [x for x in results if p(q, x)]] *)
Definition where_ {A B : Type}
  (q : option B) (p : B -> A -> bool) (results : list A) : list A :=
  match q with
  | Some x => filter (p x) results
  | None => results
  end.

(* ------------------------------------------------------------------------- *)
(** * Address endpoints (main.py, lines 70-113) *)

Definition create_address (uuid4 : UUID) (address : AddressCreate.t) (s : store)
  : response AddressRead.t * store :=
  if PyDict.mem (Address.id address) (addresses s)
  then (HTTPException 400 "Address with this ID already exists", s)
  else
    match AddressRead.validate uuid4 (AddressCreate.model_dump address) with
    | None => (ValidationError, s)
    | Some a =>
        let s := set_addresses (PyDict.set (Address.id address) a (addresses s)) s in
        (subscript 201 (addresses s) (Address.id address), s)
    end.

Definition list_addresses
  (street city state postal_code country : option string) (s : store)
  : list AddressRead.t :=
  let results := PyDict.values (addresses s) in
  let results := where_ street (fun q a => Address.street a =? q)%string results in
  let results := where_ city (fun q a => Address.city a =? q)%string results in
  let results := where_ state (fun q a => Address.state a =? q)%string results in
  let results :=
    where_ postal_code (fun q a => Address.postal_code a =? q)%string results in
  let results := where_ country (fun q a => Address.country a =? q)%string results in
  results.

Definition get_address (address_id : UUID) (s : store) : response AddressRead.t :=
  if negb (PyDict.mem address_id (addresses s))
  then HTTPException 404 "Address not found"
  else subscript 200 (addresses s) address_id.

Definition update_address
  (uuid4 : UUID) (address_id : UUID) (update : AddressUpdate.t) (s : store)
  : response AddressRead.t * store :=
  if negb (PyDict.mem address_id (addresses s))
  then (HTTPException 404 "Address not found", s)
  else
    match PyDict.get address_id (addresses s) with
    | None => (KeyError, s)
    | Some a =>
        let stored := AddressRead.model_dump a in
        let stored :=
          PyDict.update stored (AddressUpdate.model_dump_exclude_unset update) in
        match AddressRead.validate uuid4 stored with
        | None => (ValidationError, s)
        | Some a' =>
            let s := set_addresses (PyDict.set address_id a' (addresses s)) s in
            (subscript 200 (addresses s) address_id, s)
        end
    end.

(* ------------------------------------------------------------------------- *)
(** * Person endpoints (main.py, lines 118-172) *)

Definition create_person (uuid4 : UUID) (person : PersonCreate.t) (s : store)
  : response PersonRead.t * store :=
  (* Each person gets its own UUID; stored as PersonRead *)
  match PersonRead.validate uuid4 (PersonCreate.model_dump person) with
  | None => (ValidationError, s)
  | Some person_read =>
      let s :=
        set_persons (PyDict.set (PersonRead.id person_read) person_read (persons s)) s in
      (Ok 201 person_read, s)
  end.

Definition list_persons
  (uni first_name last_name email phone birth_date city country : option string)
  (s : store) : list PersonRead.t :=
  let results := PyDict.values (persons s) in
  let results := where_ uni (fun q p => PersonRead.uni p =? q)%string results in
  let results :=
    where_ first_name (fun q p => PersonRead.first_name p =? q)%string results in
  let results :=
    where_ last_name (fun q p => PersonRead.last_name p =? q)%string results in
  let results := where_ email (fun q p => PersonRead.email p =? q)%string results in
  let results := where_ phone (fun q p => PersonRead.phone p =? q)%string results in
  let results :=
    where_ birth_date
      (fun q p => str_date (PersonRead.birth_date p) =? q)%string results in
  (* nested address filtering *)
  let results :=
    where_ city
      (fun q p => existsb (fun addr => Address.city addr =? q)%string
                    (PersonRead.addresses p)) results in
  let results :=
    where_ country
      (fun q p => existsb (fun addr => Address.country addr =? q)%string
                    (PersonRead.addresses p)) results in
  results.

Definition get_person (person_id : UUID) (s : store) : response PersonRead.t :=
  if negb (PyDict.mem person_id (persons s))
  then HTTPException 404 "Person not found"
  else subscript 200 (persons s) person_id.

Definition update_person
  (uuid4 : UUID) (person_id : UUID) (update : PersonUpdate.t) (s : store)
  : response PersonRead.t * store :=
  if negb (PyDict.mem person_id (persons s))
  then (HTTPException 404 "Person not found", s)
  else
    match PyDict.get person_id (persons s) with
    | None => (KeyError, s)
    | Some p =>
        let stored := PersonRead.model_dump p in
        let stored :=
          PyDict.update stored (PersonUpdate.model_dump_exclude_unset update) in
        match PersonRead.validate uuid4 stored with
        | None => (ValidationError, s)
        | Some p' =>
            let s := set_persons (PyDict.set person_id p' (persons s)) s in
            (subscript 200 (persons s) person_id, s)
        end
    end.

(* ------------------------------------------------------------------------- *)
(** * Course endpoints (main.py, lines 177-211) *)

Definition create_course (course : Course.t) (s : store)
  : response Course.t * store :=
  if PyDict.mem (Course.code course) (courses s)
  then (HTTPException 400 "Course with this code already exists", s)
  else
    let s := set_courses (PyDict.set (Course.code course) course (courses s)) s in
    (Ok 201 course, s).

Definition list_courses
  (code dept_id instructor : option string) (min_credits max_credits : option Z)
  (s : store) : list Course.t :=
  let results := PyDict.values (courses s) in
  let results := where_ code (fun q c => Course.code c =? q)%string results in
  let results := where_ dept_id (fun q c => Course.dept_id c =? q)%string results in
  let results :=
    where_ instructor (fun q c => Course.instructor c =? q)%string results in
  let results := where_ min_credits (fun q c => Course.credits c >=? q) results in
  let results := where_ max_credits (fun q c => Course.credits c <=? q) results in
  results.

Definition get_course (course_code : string) (s : store) : response Course.t :=
  if negb (PyDict.mem course_code (courses s))
  then HTTPException 404 "Course not found"
  else subscript 200 (courses s) course_code.

(* ------------------------------------------------------------------------- *)
(** * Enrollment endpoints (main.py, lines 216-277) *)

Definition create_enrollment (enrollment : Enrollment.t) (s : store)
  : response Enrollment.t * store :=
  let key :=
    _enroll_key (Enrollment.uni enrollment) (Enrollment.course_code enrollment)
      (Enrollment.year enrollment) (Enrollment.term enrollment) in
  if PyDict.mem key (enrollments s)
  then (HTTPException 400
          "Enrollment already exists for this (uni, course, year, term)", s)
  else
    let s := set_enrollments (PyDict.set key enrollment (enrollments s)) s in
    (Ok 201 enrollment, s).

Definition list_enrollments
  (uni course_code : option string) (year : option Z) (term status : option string)
  (s : store) : list Enrollment.t :=
  let results := PyDict.values (enrollments s) in
  let results := where_ uni (fun q e => Enrollment.uni e =? q)%string results in
  let results :=
    where_ course_code (fun q e => Enrollment.course_code e =? q)%string results in
  let results := where_ year (fun q e => Enrollment.year e =? q) results in
  let results := where_ term (fun q e => Enrollment.term e =? q)%string results in
  let results := where_ status (fun q e => Enrollment.status e =? q)%string results in
  results.

Definition get_enrollment
  (uni course_code : string) (year : Z) (term : string) (s : store)
  : response Enrollment.t :=
  let key := _enroll_key uni course_code year term in
  if negb (PyDict.mem key (enrollments s))
  then HTTPException 404 "Enrollment not found"
  else subscript 200 (enrollments s) key.

Definition update_enrollment_status
  (uni course_code : string) (year : Z) (term : string) (status : string)
  (s : store) : response Enrollment.t * store :=
  let key := _enroll_key uni course_code year term in
  if negb (PyDict.mem key (enrollments s))
  then (HTTPException 404 "Enrollment not found", s)
  else
    match PyDict.get key (enrollments s) with
    | None => (KeyError, s)
    | Some e =>
        let current := Enrollment.model_dump e in
        let current := PyDict.set "status" (VStr status) current in
        match Enrollment.validate current with
        | None => (ValidationError, s)
        | Some e' =>
            let s := set_enrollments (PyDict.set key e' (enrollments s)) s in
            (subscript 200 (enrollments s) key, s)
        end
    end.

(* ------------------------------------------------------------------------- *)
(** * Requests *)

(** A route whose handler takes a model as its body: the body is validated
    against the model before the handler runs, and a body that fails is
    answered with the ValidationError, the handler not being called. *)
Definition with_body {M A : Type}
  (validate : fields -> option M) (body : fields)
  (handler : M -> store -> response A * store) (s : store)
  : response A * store :=
  match validate body with
  | None => (ValidationError, s)
  | Some m => handler m s
  end.

Definition post_addresses (uuid4 : UUID) (body : fields) :=
  with_body (AddressCreate.validate uuid4) body (create_address uuid4).
Definition patch_address (uuid4 : UUID) (address_id : UUID) (body : fields) :=
  with_body AddressUpdate.validate body (update_address uuid4 address_id).
Definition post_persons (uuid4 : UUID) (body : fields) :=
  with_body PersonCreate.validate body (create_person uuid4).
Definition patch_person (uuid4 : UUID) (person_id : UUID) (body : fields) :=
  with_body PersonUpdate.validate body (update_person uuid4 person_id).
Definition post_courses (body : fields) :=
  with_body Course.validate body create_course.
Definition post_enrollments (body : fields) :=
  with_body Enrollment.validate body create_enrollment.

(** The requests of the CRUD core. [uuid4] is the identifier that the next
    call of the [id] factory returns. *)
Inductive request :=
| POST_addresses (uuid4 : UUID) (body : fields)
| GET_addresses (street city state postal_code country : option string)
| GET_address (address_id : UUID)
| PATCH_address (uuid4 : UUID) (address_id : UUID) (body : fields)
| POST_persons (uuid4 : UUID) (body : fields)
| GET_persons
    (uni first_name last_name email phone birth_date city country : option string)
| GET_person (person_id : UUID)
| PATCH_person (uuid4 : UUID) (person_id : UUID) (body : fields)
| POST_courses (body : fields)
| GET_courses
    (code dept_id instructor : option string) (min_credits max_credits : option Z)
| GET_course (course_code : string)
| POST_enrollments (body : fields)
| GET_enrollments
    (uni course_code : option string) (year : option Z) (term status : option string)
| GET_enrollment (uni course_code : string) (year : Z) (term : string)
| PATCH_enrollment (uni course_code : string) (year : Z) (term status : string).

Inductive reply :=
| Address_ (r : response AddressRead.t)
| Addresses_ (r : response (list AddressRead.t))
| Person_ (r : response PersonRead.t)
| Persons_ (r : response (list PersonRead.t))
| Course_ (r : response Course.t)
| Courses_ (r : response (list Course.t))
| Enrollment_ (r : response Enrollment.t)
| Enrollments_ (r : response (list Enrollment.t)).

(** GET /courses declares [ge=0] on [min_credits] and on [max_credits]: a
    negative bound is rejected before the handler runs. *)
Definition ge0 (q : option Z) : bool :=
  match q with
  | Some x => 0 <=? x
  | None => true
  end.

Definition serve (r : request) (s : store) : reply * store :=
  match r with
  | POST_addresses uuid4 body =>
      let (a, s') := post_addresses uuid4 body s in (Address_ a, s')
  | GET_addresses street city state postal_code country =>
      (Addresses_ (Ok 200 (list_addresses street city state postal_code country s)),
       s)
  | GET_address address_id => (Address_ (get_address address_id s), s)
  | PATCH_address uuid4 address_id body =>
      let (a, s') := patch_address uuid4 address_id body s in (Address_ a, s')
  | POST_persons uuid4 body =>
      let (p, s') := post_persons uuid4 body s in (Person_ p, s')
  | GET_persons uni first_name last_name email phone birth_date city country =>
      (Persons_ (Ok 200 (list_persons uni first_name last_name email phone
                           birth_date city country s)), s)
  | GET_person person_id => (Person_ (get_person person_id s), s)
  | PATCH_person uuid4 person_id body =>
      let (p, s') := patch_person uuid4 person_id body s in (Person_ p, s')
  | POST_courses body =>
      let (c, s') := post_courses body s in (Course_ c, s')
  | GET_courses code dept_id instructor min_credits max_credits =>
      if ge0 min_credits && ge0 max_credits
      then (Courses_ (Ok 200 (list_courses code dept_id instructor min_credits
                                max_credits s)), s)
      else (Courses_ ValidationError, s)
  | GET_course course_code => (Course_ (get_course course_code s), s)
  | POST_enrollments body =>
      let (e, s') := post_enrollments body s in (Enrollment_ e, s')
  | GET_enrollments uni course_code year term status =>
      (Enrollments_ (Ok 200 (list_enrollments uni course_code year term status s)),
       s)
  | GET_enrollment uni course_code year term =>
      (Enrollment_ (get_enrollment uni course_code year term s), s)
  | PATCH_enrollment uni course_code year term status =>
      let (e, s') := update_enrollment_status uni course_code year term status s in
      (Enrollment_ e, s')
  end.

(** The stores the service can be in: the empty store of a fresh process, and
    the store left by any request served from such a store. *)
Inductive reachable : store -> Prop :=
| reachable_empty : reachable empty_store
| reachable_serve : forall r s, reachable s -> reachable (snd (serve r s)).

(* ------------------------------------------------------------------------- *)
(** * Invariants of the store *)

(** The key [create_enrollment] builds for an enrollment. *)
Definition key_of (e : Enrollment.t) : string :=
  _enroll_key (Enrollment.uni e) (Enrollment.course_code e)
    (Enrollment.year e) (Enrollment.term e).

(** Every entry of [courses] is filed under the code of its course, every
    entry of [enrollments] under the key built from its own fields. *)
Definition coherent (s : store) : Prop :=
  (forall k c, In (k, c) (courses s) -> k = Course.code c) /\
  (forall k e, In (k, e) (enrollments s) -> k = key_of e).

(** Every stored course and enrollment satisfies the constraints of its
    model. *)
Definition validated (s : store) : Prop :=
  (forall k c, In (k, c) (courses s) -> 0 <= Course.credits c <= 6) /\
  (forall k e, In (k, e) (enrollments s) -> 2 <= len (Enrollment.uni e)).

(** The identity fields of a tuple (uni, course_code, year, term). *)
Definition no_pipe (s : string) : bool := negb (contains pipe s).

(** The identity of an enrollment: (uni, course_code, year, term). *)
Definition identity := (string * string * Z * string)%type.

Definition identity_key (i : identity) : string :=
  let '(uni, course_code, year, term) := i in
  _enroll_key uni course_code year term.

(** The constraint the Enrollment model puts on the components of an
    identity: [uni] has at least two characters. *)
Definition legal (i : identity) : Prop :=
  let '(uni, _, _, _) := i in 2 <= len uni.

(** Neither [uni] nor [course_code] contains the delimiter. *)
Definition pipe_free (i : identity) : Prop :=
  let '(uni, course_code, _, _) := i in
  no_pipe uni = true /\ no_pipe course_code = true.

(** Two identities that differ in exactly one component. *)
Definition differ_in_one (i j : identity) : Prop :=
  let '(u, c, y, t) := i in
  let '(u', c', y', t') := j in
  (u <> u' /\ c = c' /\ y = y' /\ t = t') \/
  (u = u' /\ c <> c' /\ y = y' /\ t = t') \/
  (u = u' /\ c = c' /\ y <> y' /\ t = t') \/
  (u = u' /\ c = c' /\ y = y' /\ t <> t').

(* ------------------------------------------------------------------------- *)
(** * Vocabulary of the statements *)

(** A query parameter that was not supplied puts no constraint. *)
Definition holds {B : Type} (q : option B) (p : B -> bool) : bool :=
  match q with
  | Some x => p x
  | None => true
  end.

(** The course satisfies every supplied criterion of GET /courses; the two
    credit bounds are inclusive. *)
Definition course_matches
  (code dept_id instructor : option string) (min_credits max_credits : option Z)
  (c : Course.t) : bool :=
  holds code (fun q => Course.code c =? q)%string
  && holds dept_id (fun q => Course.dept_id c =? q)%string
  && holds instructor (fun q => Course.instructor c =? q)%string
  && holds min_credits (fun q => q <=? Course.credits c)
  && holds max_credits (fun q => Course.credits c <=? q).

(** The person satisfies every supplied criterion of GET /persons; [city] and
    [country] ask for at least one embedded address with that value. *)
Definition person_matches
  (uni first_name last_name email phone birth_date city country : option string)
  (p : PersonRead.t) : bool :=
  holds uni (fun q => PersonRead.uni p =? q)%string
  && holds first_name (fun q => PersonRead.first_name p =? q)%string
  && holds last_name (fun q => PersonRead.last_name p =? q)%string
  && holds email (fun q => PersonRead.email p =? q)%string
  && holds phone (fun q => PersonRead.phone p =? q)%string
  && holds birth_date (fun q => str_date (PersonRead.birth_date p) =? q)%string
  && holds city (fun q => existsb (fun a => Address.city a =? q)%string
                            (PersonRead.addresses p))
  && holds country (fun q => existsb (fun a => Address.country a =? q)%string
                               (PersonRead.addresses p)).

Definition address_matches
  (street city state postal_code country : option string) (a : Address.t) : bool :=
  holds street (fun q => Address.street a =? q)%string
  && holds city (fun q => Address.city a =? q)%string
  && holds state (fun q => Address.state a =? q)%string
  && holds postal_code (fun q => Address.postal_code a =? q)%string
  && holds country (fun q => Address.country a =? q)%string.

Definition enrollment_matches
  (uni course_code : option string) (year : option Z) (term status : option string)
  (e : Enrollment.t) : bool :=
  holds uni (fun q => Enrollment.uni e =? q)%string
  && holds course_code (fun q => Enrollment.course_code e =? q)%string
  && holds year (fun q => Enrollment.year e =? q)
  && holds term (fun q => Enrollment.term e =? q)%string
  && holds status (fun q => Enrollment.status e =? q)%string.

(** The attributes a partial update can assign. *)
Definition Address_attributes : list string :=
  ["street"; "city"; "state"; "postal_code"; "country"].

Definition Person_attributes : list string :=
  ["uni"; "first_name"; "last_name"; "email"; "phone"; "birth_date"; "addresses"].

Definition among (names : list string) (f : string) : bool :=
  existsb (String.eqb f) names.

(** The enrollment with its status replaced. *)
Definition with_status (status : string) (e : Enrollment.t) : Enrollment.t :=
  Enrollment.mk (Enrollment.uni e) (Enrollment.course_code e)
    (Enrollment.year e) (Enrollment.term e) status.

(** No two entries of a dictionary of the store have the same key. *)
Definition well_keyed (s : store) : Prop :=
  PyDict.wf (persons s) /\ PyDict.wf (addresses s) /\
  PyDict.wf (courses s) /\ PyDict.wf (enrollments s).

(** What a request can do to the store: nothing, or one assignment to one
    dictionary. *)
Inductive effect (s : store) : store -> Prop :=
| effect_none : effect s s
| effect_address : forall k a,
    effect s (set_addresses (PyDict.set k a (addresses s)) s)
| effect_person : forall k p,
    effect s (set_persons (PyDict.set k p (persons s)) s)
| effect_course : forall c,
    0 <= Course.credits c <= 6 ->
    PyDict.mem (Course.code c) (courses s) = false ->
    effect s (set_courses (PyDict.set (Course.code c) c (courses s)) s)
| effect_enrollment : forall e,
    2 <= len (Enrollment.uni e) ->
    PyDict.mem (key_of e) (enrollments s) = false ->
    effect s (set_enrollments (PyDict.set (key_of e) e (enrollments s)) s)
| effect_status : forall k e status,
    PyDict.get k (enrollments s) = Some e ->
    2 <= len (Enrollment.uni e) ->
    effect s (set_enrollments
                (PyDict.set k (with_status status e) (enrollments s)) s).

(** Serving a sequence of requests. *)
Definition run (rs : list request) (s : store) : store :=
  fold_left (fun s r => snd (serve r s)) rs s.

(* ------------------------------------------------------------------------- *)
(** * Fixtures *)

Definition cloud_computing : Course.t :=
  Course.mk "COMS W4153" "Cloud Computing" "Donald F. Ferguson" 3 "COMS".

Definition abc_cloud_fall : Enrollment.t :=
  Enrollment.mk "abc1234" "COMS W4153" 2025 "FALL" "enrolled".

Definition low_library : Address.t :=
  Address.mk 11%N "535 W 116th St" "New York" "NY" "10027" "USA".

Definition ada : PersonCreate.t :=
  PersonCreate.mk "al1815" "Ada" "Lovelace" "ada@example.org" "+1-212-555-0100"
    "1815-12-10" [low_library].

(** The store after one POST on each collection, the person getting the
    generated id 21. *)
Definition fixture_store : store :=
  run [POST_addresses 10%N (AddressCreate.model_dump low_library);
       POST_persons 21%N (PersonCreate.model_dump ada);
       POST_courses (Course.model_dump cloud_computing);
       POST_enrollments (Enrollment.model_dump abc_cloud_fall)]
    empty_store.

(** An enrollment whose uni contains the delimiter, and the store after its
    POST. *)
Definition piped_enrollment : Enrollment.t :=
  Enrollment.mk "ab|c" "d" 2025 "FALL" "enrolled".

Definition piped_store : store :=
  run [POST_enrollments (Enrollment.model_dump piped_enrollment)] empty_store.

(* ------------------------------------------------------------------------- *)
(** * Vocabulary of the further properties *)

(** Every entry of [addresses] and of [persons] is filed under the [id] of
    its value. *)
Definition id_coherent (s : store) : Prop :=
  (forall k a, In (k, a) (addresses s) -> k = Address.id a) /\
  (forall k p, In (k, p) (persons s) -> k = PersonRead.id p).

(** The handler returned, it did not raise. *)
Definition is_ok {A : Type} (r : response A) : bool :=
  match r with
  | Ok _ _ => true
  | _ => false
  end.

Definition succeeded (r : reply) : bool :=
  match r with
  | Address_ r => is_ok r
  | Addresses_ r => is_ok r
  | Person_ r => is_ok r
  | Persons_ r => is_ok r
  | Course_ r => is_ok r
  | Courses_ r => is_ok r
  | Enrollment_ r => is_ok r
  | Enrollments_ r => is_ok r
  end.

(** The routes whose handler assigns to a dictionary. *)
Definition writes_persons (r : request) : bool :=
  match r with
  | POST_persons _ _ | PATCH_person _ _ _ => true
  | _ => false
  end.

Definition writes_addresses (r : request) : bool :=
  match r with
  | POST_addresses _ _ | PATCH_address _ _ _ => true
  | _ => false
  end.

Definition writes_courses (r : request) : bool :=
  match r with
  | POST_courses _ => true
  | _ => false
  end.

Definition writes_enrollments (r : request) : bool :=
  match r with
  | POST_enrollments _ | PATCH_enrollment _ _ _ _ _ => true
  | _ => false
  end.

(** The identity (uni, course_code, year, term) of an enrollment. *)
Definition identity_of (e : Enrollment.t) : identity :=
  (Enrollment.uni e, Enrollment.course_code e,
   Enrollment.year e, Enrollment.term e).

(** [l'] is [l] followed by further elements. *)
Definition extends {A : Type} (l l' : list A) : Prop :=
  exists t, l' = l ++ t.

(** The constraints of the two models as boolean tests. *)
Definition Course_valid (c : Course.t) : bool :=
  (0 <=? Course.credits c) && (Course.credits c <=? 6).

Definition Enrollment_valid (e : Enrollment.t) : bool :=
  2 <=? len (Enrollment.uni e).

(** The fields of the two models of my_models.py. *)
Definition Course_fields : list string :=
  ["code"; "title"; "instructor"; "credits"; "dept_id"].

Definition Enrollment_fields : list string :=
  ["uni"; "course_code"; "year"; "term"; "status"].

(** The person that POST /persons stores for a payload and a generated id. *)
Definition person_read (uuid4 : UUID) (person : PersonCreate.t) : PersonRead.t :=
  PersonRead.mk uuid4 (PersonCreate.uni person) (PersonCreate.first_name person)
    (PersonCreate.last_name person) (PersonCreate.email person)
    (PersonCreate.phone person) (PersonCreate.birth_date person)
    (PersonCreate.addresses person).

(* ------------------------------------------------------------------------- *)
(** * Facts about strings *)

Lemma append_cancel_l (a r r' : string) :
  (a ++ r = a ++ r' -> r = r')%string.
Proof.
  induction a as [|ch a IH]; simpl; intros E; [exact E|].
  injection E as E. auto.
Qed.

Lemma append_same_length (a a' r r' : string) :
  String.length a = String.length a' ->
  (a ++ r = a' ++ r')%string -> a = a' /\ r = r'.
Proof.
  revert a'. induction a as [|ch a IH]; intros [|ch' a'] L E;
    simpl in *; try discriminate.
  - auto.
  - injection L as L. injection E as -> E.
    destruct (IH a' L E) as [-> ->]. auto.
Qed.

Lemma append_length (a b : string) :
  String.length (a ++ b) = (String.length a + String.length b)%nat.
Proof. induction a; simpl; congruence. Qed.

Lemma append_cancel_r (a a' r : string) :
  (a ++ r = a' ++ r -> a = a')%string.
Proof.
  intros E. apply (@append_same_length a a' r r); [|exact E].
  apply (f_equal String.length) in E. rewrite !append_length in E. lia.
Qed.

(** Two strings cut at their first delimiter. *)
Lemma split_at_pipe (a a' r r' : string) :
  no_pipe a = true -> no_pipe a' = true ->
  (a ++ String pipe r = a' ++ String pipe r')%string ->
  a = a' /\ r = r'.
Proof.
  unfold no_pipe. revert a'.
  induction a as [|ch a IH]; intros [|ch' a'] Ha Ha' E; simpl in *.
  - injection E as E. auto.
  - injection E as E _. subst ch'. rewrite Ascii.eqb_refl in Ha'. discriminate.
  - injection E as E _. subst ch. rewrite Ascii.eqb_refl in Ha. discriminate.
  - injection E as -> E.
    rewrite negb_orb in Ha, Ha'.
    apply andb_prop in Ha as [_ Ha]. apply andb_prop in Ha' as [_ Ha'].
    destruct (IH a' Ha Ha' E) as [-> ->]. auto.
Qed.

Lemma string_of_uint_no_pipe (d : Decimal.uint) :
  contains pipe (NilEmpty.string_of_uint d) = false.
Proof. induction d; simpl; auto. Qed.

Lemma str_int_no_pipe (z : Z) : no_pipe (str_int z) = true.
Proof.
  unfold no_pipe, str_int.
  destruct (Z.to_int z); simpl; now rewrite string_of_uint_no_pipe.
Qed.

Lemma str_int_inj (z z' : Z) : str_int z = str_int z' -> z = z'.
Proof.
  unfold str_int. intros E.
  apply DecimalZ.to_int_inj.
  assert (Some (Z.to_int z) = Some (Z.to_int z')) as S
    by (rewrite <- !NilEmpty.isi; now rewrite E).
  now injection S.
Qed.

Lemma enroll_key_inj (u c : string) (y : Z) (t u' c' : string) (y' : Z) (t' : string) :
  no_pipe u = true -> no_pipe c = true ->
  no_pipe u' = true -> no_pipe c' = true ->
  _enroll_key u c y t = _enroll_key u' c' y' t' ->
  u = u' /\ c = c' /\ y = y' /\ t = t'.
Proof.
  unfold _enroll_key. intros Hu Hc Hu' Hc' E.
  apply split_at_pipe in E as [-> E]; auto.
  apply split_at_pipe in E as [-> E]; auto.
  apply split_at_pipe in E as [Ey ->]; auto using str_int_no_pipe.
  apply str_int_inj in Ey. auto.
Qed.

(** C1 (as amended). The key builder is a function of the tuple, so equal
    tuples get equal keys; two tuples that differ in exactly one component get
    different keys; and on tuples whose uni and course_code do not contain the
    delimiter the builder is injective: equal keys only for equal tuples. *)
Theorem enroll_key_deterministic_injective_pipe_free (i j : identity) :
  (i = j -> identity_key i = identity_key j) /\
  (differ_in_one i j -> identity_key i <> identity_key j) /\
  (pipe_free i -> pipe_free j -> identity_key i = identity_key j -> i = j).
Proof.
  destruct i as [[[u c] y] t], j as [[[u' c'] y'] t'].
  split; [now intros ->|]. split.
  - unfold differ_in_one, identity_key, _enroll_key.
    intros [(N & -> & -> & ->)|[(-> & N & -> & ->)|[(-> & -> & N & ->)|(-> & -> & -> & N)]]] E.
    + apply append_cancel_r in E. contradiction.
    + apply append_cancel_l in E. apply (append_cancel_l "|") in E.
      apply append_cancel_r in E. contradiction.
    + do 4 apply append_cancel_l in E.
      apply append_cancel_r in E. apply str_int_inj in E. contradiction.
    + do 6 apply append_cancel_l in E. contradiction.
  - simpl. intros [Hu Hc] [Hu' Hc'] E.
    destruct (@enroll_key_inj u c y t u' c' y' t' Hu Hc Hu' Hc' E) as (-> & -> & -> & ->).
    reflexivity.
Qed.

Lemma enroll_key_deterministic_injective_pipe_free_witness :
  pipe_free ("ab", "c", 2025, "FALL") /\
  pipe_free ("ab", "c", 2025, "FALL") /\
  identity_key ("ab", "c", 2025, "FALL") = identity_key ("ab", "c", 2025, "FALL") /\
  ("ab", "c", 2025, "FALL") = ("ab", "c", 2025, "FALL").
Proof.
  assert (pipe_free ("ab", "c", 2025, "FALL")) as P by (split; reflexivity).
  assert (identity_key ("ab", "c", 2025, "FALL") = identity_key ("ab", "c", 2025, "FALL"))
    as E by reflexivity.
  refine (conj P (conj P (conj E _))).
  exact (proj2 (proj2 (enroll_key_deterministic_injective_pipe_free
                         ("ab", "c", 2025, "FALL") ("ab", "c", 2025, "FALL"))) P P E).
Defined.

(** C1 (as stated) fails: two legal tuples that differ in uni and in
    course_code and get the same key. *)
Lemma enroll_key_collision :
  legal ("ab|c", "d", 2025, "FALL") /\
  legal ("ab", "c|d", 2025, "FALL") /\
  ("ab|c", "d", 2025, "FALL") <> ("ab", "c|d", 2025, "FALL") /\
  identity_key ("ab|c", "d", 2025, "FALL") = identity_key ("ab", "c|d", 2025, "FALL").
Proof.
  repeat split; try discriminate; vm_compute; discriminate.
Qed.

(* ------------------------------------------------------------------------- *)
(** * Facts about dictionaries *)

Section DictFacts.
Context {K V : Type} `{Hashable K}.
Implicit Types (d u : dict K V) (k : K) (v : V).

Lemma key_eqb_refl k : key_eqb k k = true.
Proof. destruct (key_eqb_spec k k); congruence. Qed.

Lemma key_eqb_true k k' : key_eqb k k' = true -> k = k'.
Proof. destruct (key_eqb_spec k k'); congruence. Qed.

Lemma key_eqb_false k k' : k <> k' -> key_eqb k k' = false.
Proof. destruct (key_eqb_spec k k'); congruence. Qed.

Lemma get_set k k' v d :
  PyDict.get k (PyDict.set k' v d)
  = if key_eqb k k' then Some v else PyDict.get k d.
Proof.
  induction d as [|[k0 v0] d IH]; simpl.
  - reflexivity.
  - destruct (key_eqb_spec k' k0) as [->|N]; simpl.
    + destruct (key_eqb k k0); reflexivity.
    + rewrite IH.
      destruct (key_eqb_spec k k0) as [->|N0]; [|reflexivity].
      now rewrite key_eqb_false by congruence.
Qed.

Lemma get_set_same k v d : PyDict.get k (PyDict.set k v d) = Some v.
Proof. now rewrite get_set, key_eqb_refl. Qed.

Lemma get_set_other k k' v d :
  k <> k' -> PyDict.get k (PyDict.set k' v d) = PyDict.get k d.
Proof. intros N. now rewrite get_set, key_eqb_false. Qed.

Lemma get_None_iff k d : PyDict.get k d = None <-> ~ In k (PyDict.keys d).
Proof.
  induction d as [|[k0 v0] d IH]; simpl.
  - tauto.
  - destruct (key_eqb_spec k k0) as [->|N].
    + split; [discriminate|tauto].
    + rewrite IH. split; [intros ? [?|?]; [congruence|tauto]|tauto].
Qed.

Lemma mem_false_iff k d : PyDict.mem k d = false <-> ~ In k (PyDict.keys d).
Proof.
  rewrite <- get_None_iff. unfold PyDict.mem.
  destruct (PyDict.get k d); split; congruence.
Qed.

Lemma mem_true_iff k d : PyDict.mem k d = true <-> In k (PyDict.keys d).
Proof.
  destruct (PyDict.mem k d) eqn:E.
  - split; [intros _|reflexivity].
    destruct (in_dec (fun x y => reflect_dec _ _ (key_eqb_spec x y)) k
                (PyDict.keys d)) as [I|N]; [exact I|].
    apply mem_false_iff in N. congruence.
  - apply mem_false_iff in E. split; [discriminate|contradiction].
Qed.

Lemma mem_get k d :
  PyDict.mem k d = true -> exists v, PyDict.get k d = Some v.
Proof. unfold PyDict.mem. destruct (PyDict.get k d); [eauto|discriminate]. Qed.

Lemma get_In k v d : PyDict.get k d = Some v -> In (k, v) d.
Proof.
  induction d as [|[k0 v0] d IH]; simpl; [discriminate|].
  destruct (key_eqb_spec k k0) as [->|N]; intros E.
  - injection E as ->. auto.
  - auto.
Qed.

Lemma In_get k v d : PyDict.wf d -> In (k, v) d -> PyDict.get k d = Some v.
Proof.
  unfold PyDict.wf.
  induction d as [|[k0 v0] d IH]; simpl; [contradiction|].
  intros W [E|I]; inversion W as [|? ? N W']; subst.
  - injection E as -> ->. now rewrite key_eqb_refl.
  - rewrite key_eqb_false; [auto|].
    intros ->. apply N. change k0 with (fst (k0, v)). now apply in_map.
Qed.

(** Assigning to an absent key appends the entry. *)
Lemma set_absent k v d :
  PyDict.mem k d = false -> PyDict.set k v d = d ++ [(k, v)].
Proof.
  unfold PyDict.mem.
  induction d as [|[k0 v0] d IH]; simpl; [reflexivity|].
  destruct (key_eqb k k0); [discriminate|].
  intros E. now rewrite IH.
Qed.

(** Assigning to a present key replaces the value where the entry is. *)
Lemma set_present k v d :
  PyDict.mem k d = true ->
  exists d1 v0 d2,
    d = d1 ++ (k, v0) :: d2 /\ PyDict.set k v d = d1 ++ (k, v) :: d2.
Proof.
  unfold PyDict.mem.
  induction d as [|[k0 v0] d IH]; simpl; [discriminate|].
  destruct (key_eqb_spec k k0) as [->|N].
  - intros _. exists [], v0, d. auto.
  - intros E. destruct (IH E) as (d1 & w & d2 & -> & ->).
    exists ((k0, v0) :: d1), w, d2. auto.
Qed.

Lemma keys_set k v d :
  PyDict.keys (PyDict.set k v d)
  = if PyDict.mem k d then PyDict.keys d else PyDict.keys d ++ [k].
Proof.
  destruct (PyDict.mem k d) eqn:E.
  - destruct (set_present k v d E) as (d1 & w & d2 & -> & ->).
    unfold PyDict.keys. now rewrite !map_app.
  - rewrite set_absent by exact E. unfold PyDict.keys. now rewrite map_app.
Qed.

Lemma wf_set k v d : PyDict.wf d -> PyDict.wf (PyDict.set k v d).
Proof.
  unfold PyDict.wf. intros W. rewrite keys_set.
  destruct (PyDict.mem k d) eqn:E; [exact W|].
  apply mem_false_iff in E.
  apply NoDup_rev in W. rewrite <- (rev_involutive (_ ++ _)).
  apply NoDup_rev. rewrite rev_app_distr. simpl.
  constructor; [|exact W]. now rewrite <- in_rev.
Qed.

Lemma In_set k v k' v' d :
  In (k', v') (PyDict.set k v d) -> (k' = k /\ v' = v) \/ In (k', v') d.
Proof.
  induction d as [|[k0 v0] d IH]; simpl.
  - intros [E|[]]. injection E as -> ->. auto.
  - destruct (key_eqb_spec k k0) as [->|N]; simpl.
    + intros [E|I]; [injection E as -> ->|]; auto.
    + intros [E|I]; [auto|]. destruct (IH I); auto.
Qed.

(** [d.update(u)] leaves the keys that [u] does not have as they are. *)
Lemma get_update_absent k d u :
  PyDict.get k u = None -> PyDict.get k (PyDict.update d u) = PyDict.get k d.
Proof.
  unfold PyDict.update. revert d.
  induction u as [|[k0 v0] u IH]; simpl; intros d; [reflexivity|].
  destruct (key_eqb k k0) eqn:E; [discriminate|].
  intros A. now rewrite IH, get_set, E.
Qed.

(** [d.update(u)] gives the keys of [u] the values they have in [u]. *)
Lemma get_update_present k v d u :
  PyDict.wf u -> PyDict.get k u = Some v ->
  PyDict.get k (PyDict.update d u) = Some v.
Proof.
  unfold PyDict.wf. revert d.
  induction u as [|[k0 v0] u IH]; simpl; intros d W; [discriminate|].
  inversion W as [|? ? N W']; subst.
  destruct (key_eqb_spec k k0) as [->|D]; intros E.
  - injection E as ->. apply get_None_iff in N.
    change (PyDict.get k0 (PyDict.update (PyDict.set k0 v d) u) = Some v).
    now rewrite get_update_absent, get_set_same.
  - now apply IH.
Qed.

End DictFacts.

(* ------------------------------------------------------------------------- *)
(** * Facts about the models *)

Lemma Address_validate_model_dump (uuid4 : UUID) (a : Address.t) :
  Address_validate uuid4 (Address_model_dump a) = Some a.
Proof. destruct a. reflexivity. Qed.

Lemma PersonRead_validate_PersonCreate (uuid4 : UUID) (p : PersonCreate.t) :
  PersonRead.validate uuid4 (PersonCreate.model_dump p)
  = Some (PersonRead.mk uuid4 (PersonCreate.uni p) (PersonCreate.first_name p)
            (PersonCreate.last_name p) (PersonCreate.email p)
            (PersonCreate.phone p) (PersonCreate.birth_date p)
            (PersonCreate.addresses p)).
Proof. reflexivity. Qed.

Lemma subscript_set {K V : Type} `{Hashable K}
  (status_code : Z) (d : dict K V) (k : K) (v : V) :
  subscript status_code (PyDict.set k v d) k = Ok status_code v.
Proof. unfold subscript. now rewrite get_set_same. Qed.

Lemma mem_set_same {K V : Type} `{Hashable K} (d : dict K V) (k : K) (v : V) :
  PyDict.mem k (PyDict.set k v d) = true.
Proof. unfold PyDict.mem. now rewrite get_set_same. Qed.

(* ------------------------------------------------------------------------- *)
(** * Creation *)

Lemma create_address_fresh (uuid4 : UUID) (address : AddressCreate.t) (s : store) :
  PyDict.mem (Address.id address) (addresses s) = false ->
  create_address uuid4 address s
  = (Ok 201 address,
     set_addresses (PyDict.set (Address.id address) address (addresses s)) s).
Proof.
  intros F. unfold create_address.
  rewrite F, Address_validate_model_dump. simpl.
  now rewrite subscript_set.
Qed.

Lemma create_course_fresh (course : Course.t) (s : store) :
  PyDict.mem (Course.code course) (courses s) = false ->
  create_course course s
  = (Ok 201 course,
     set_courses (PyDict.set (Course.code course) course (courses s)) s).
Proof. intros F. unfold create_course. now rewrite F. Qed.

Lemma create_enrollment_fresh (enrollment : Enrollment.t) (s : store) :
  PyDict.mem (key_of enrollment) (enrollments s) = false ->
  create_enrollment enrollment s
  = (Ok 201 enrollment,
     set_enrollments (PyDict.set (key_of enrollment) enrollment (enrollments s)) s).
Proof. intros F. unfold create_enrollment. fold (key_of enrollment). now rewrite F. Qed.

Lemma create_person_stores (uuid4 : UUID) (person : PersonCreate.t) (s : store) :
  exists person_read,
    PersonRead.id person_read = uuid4 /\
    create_person uuid4 person s
    = (Ok 201 person_read,
       set_persons (PyDict.set uuid4 person_read (persons s)) s).
Proof.
  unfold create_person. rewrite PersonRead_validate_PersonCreate.
  eexists. split; [|reflexivity]. reflexivity.
Qed.

(** C2 (as amended). POST /persons never answers 400: [create_person] has no
    conflict check. It builds the PersonRead with the generated id, files it
    under that id, answers 201 with it, and the person can then be read back
    under that id. *)
Theorem create_person_always_201 (uuid4 : UUID) (person : PersonCreate.t) (s : store) :
  let person_read :=
    PersonRead.mk uuid4 (PersonCreate.uni person) (PersonCreate.first_name person)
      (PersonCreate.last_name person) (PersonCreate.email person)
      (PersonCreate.phone person) (PersonCreate.birth_date person)
      (PersonCreate.addresses person) in
  let s' := set_persons (PyDict.set uuid4 person_read (persons s)) s in
  create_person uuid4 person s = (Ok 201 person_read, s') /\
  get_person uuid4 s' = Ok 200 person_read.
Proof.
  intros person_read s'. split.
  - unfold create_person. now rewrite PersonRead_validate_PersonCreate.
  - unfold get_person, s'. simpl. now rewrite mem_set_same, subscript_set.
Qed.

(** C2 (as stated) fails: with the generated id already present in [persons],
    the answer is 201, not 400, and the person stored under that id is
    replaced. *)
Lemma create_person_conflict_not_rejected :
  let old := PersonRead.mk 7%N "ab1234" "Ada" "Lovelace" "ada@example.org"
               "+1-212-555-0100" "1815-12-10" [] in
  let person := PersonCreate.mk "cd5678" "Alan" "Turing" "alan@example.org"
                  "+1-212-555-0101" "1912-06-23" [] in
  let s := set_persons (PyDict.set 7%N old PyDict.empty) empty_store in
  PyDict.mem 7%N (persons s) = true /\
  (forall detail, fst (create_person 7%N person s) <> HTTPException 400 detail) /\
  exists person_read,
    fst (create_person 7%N person s) = Ok 201 person_read /\
    PyDict.get 7%N (persons (snd (create_person 7%N person s))) = Some person_read /\
    person_read <> old.
Proof.
  cbv zeta. split; [reflexivity|]. split.
  - intros detail. vm_compute. discriminate.
  - eexists. split; [reflexivity|]. split; [reflexivity|]. discriminate.
Qed.

(** C4. Creating an Address, a Course or an Enrollment whose identity is
    already a key of its dictionary raises HTTPException 400 and returns the
    store as it was, so the value stored under that identity is untouched. *)
Theorem create_existing_identity_400 (s : store) :
  (forall uuid4 address,
      PyDict.mem (Address.id address) (addresses s) = true ->
      create_address uuid4 address s
      = (HTTPException 400 "Address with this ID already exists", s)) /\
  (forall course,
      PyDict.mem (Course.code course) (courses s) = true ->
      create_course course s
      = (HTTPException 400 "Course with this code already exists", s)) /\
  (forall enrollment,
      PyDict.mem (key_of enrollment) (enrollments s) = true ->
      create_enrollment enrollment s
      = (HTTPException 400
           "Enrollment already exists for this (uni, course, year, term)", s)).
Proof.
  repeat split.
  - intros uuid4 address M. unfold create_address. now rewrite M.
  - intros course M. unfold create_course. now rewrite M.
  - intros enrollment M. unfold create_enrollment.
    fold (key_of enrollment). now rewrite M.
Qed.

Lemma create_existing_identity_400_witness :
  PyDict.mem (Course.code cloud_computing) (courses fixture_store) = true /\
  create_course cloud_computing fixture_store
  = (HTTPException 400 "Course with this code already exists", fixture_store).
Proof.
  split; [reflexivity|].
  apply (proj1 (proj2 (create_existing_identity_400 fixture_store))).
  reflexivity.
Defined.

(** C5. When a create succeeds, reading the identity of the record it returned
    from the store it left succeeds with that same record. *)
Theorem create_then_get (s s' : store) :
  (forall uuid4 address status_code r,
      create_address uuid4 address s = (Ok status_code r, s') ->
      get_address (Address.id r) s' = Ok 200 r) /\
  (forall uuid4 person status_code r,
      create_person uuid4 person s = (Ok status_code r, s') ->
      get_person (PersonRead.id r) s' = Ok 200 r) /\
  (forall course status_code r,
      create_course course s = (Ok status_code r, s') ->
      get_course (Course.code r) s' = Ok 200 r) /\
  (forall enrollment status_code r,
      create_enrollment enrollment s = (Ok status_code r, s') ->
      get_enrollment (Enrollment.uni r) (Enrollment.course_code r)
        (Enrollment.year r) (Enrollment.term r) s' = Ok 200 r).
Proof.
  repeat split.
  - intros uuid4 address status_code r C.
    destruct (PyDict.mem (Address.id address) (addresses s)) eqn:M.
    + unfold create_address in C. rewrite M in C. discriminate.
    + rewrite create_address_fresh in C by exact M.
      injection C as _ <- <-.
      unfold get_address. simpl. now rewrite mem_set_same, subscript_set.
  - intros uuid4 person status_code r C.
    destruct (create_person_stores uuid4 person s) as (p & I & C').
    rewrite C' in C. injection C as _ <- <-.
    unfold get_person. simpl. now rewrite I, mem_set_same, subscript_set.
  - intros course status_code r C.
    destruct (PyDict.mem (Course.code course) (courses s)) eqn:M.
    + unfold create_course in C. rewrite M in C. discriminate.
    + rewrite create_course_fresh in C by exact M.
      injection C as _ <- <-.
      unfold get_course. simpl. now rewrite mem_set_same, subscript_set.
  - intros enrollment status_code r C.
    destruct (PyDict.mem (key_of enrollment) (enrollments s)) eqn:M.
    + unfold create_enrollment in C. fold (key_of enrollment) in C.
      rewrite M in C. discriminate.
    + rewrite create_enrollment_fresh in C by exact M.
      injection C as _ <- <-.
      unfold get_enrollment. fold (key_of enrollment). simpl.
      now rewrite mem_set_same, subscript_set.
Qed.

Lemma create_then_get_witness :
  create_course cloud_computing empty_store
  = (Ok 201 cloud_computing, snd (create_course cloud_computing empty_store)) /\
  get_course "COMS W4153" (snd (create_course cloud_computing empty_store))
  = Ok 200 cloud_computing.
Proof.
  split; [reflexivity|].
  apply (proj1 (proj2 (proj2
           (create_then_get empty_store
              (snd (create_course cloud_computing empty_store)))))
           cloud_computing 201 cloud_computing).
  reflexivity.
Defined.

(** Updating under an id, or under a composite key, that is not a key of its
    dictionary raises HTTPException 404 and returns the store as it was. *)
Lemma update_absent_key_404 (s : store) :
  (forall uuid4 person_id update,
      PyDict.mem person_id (persons s) = false ->
      update_person uuid4 person_id update s
      = (HTTPException 404 "Person not found", s)) /\
  (forall uuid4 address_id update,
      PyDict.mem address_id (addresses s) = false ->
      update_address uuid4 address_id update s
      = (HTTPException 404 "Address not found", s)) /\
  (forall uni course_code year term status,
      PyDict.mem (_enroll_key uni course_code year term) (enrollments s) = false ->
      update_enrollment_status uni course_code year term status s
      = (HTTPException 404 "Enrollment not found", s)).
Proof.
  repeat split.
  - intros uuid4 person_id update M. unfold update_person. now rewrite M.
  - intros uuid4 address_id update M. unfold update_address. now rewrite M.
  - intros uni course_code year term status M.
    unfold update_enrollment_status. now rewrite M.
Qed.

(* ------------------------------------------------------------------------- *)
(** * Listing *)

Lemma where_as_filter {A B : Type} (q : option B) (p : B -> A -> bool) (l : list A) :
  where_ q p l = filter (fun x => holds q (fun b => p b x)) l.
Proof.
  destruct q as [b|]; simpl; [reflexivity|].
  induction l as [|x l IH]; simpl; congruence.
Qed.

Lemma filter_filter {A : Type} (f g : A -> bool) (l : list A) :
  filter g (filter f l) = filter (fun x => f x && g x) l.
Proof.
  induction l as [|x l IH]; simpl; [reflexivity|].
  destruct (f x); simpl; [destruct (g x)|]; congruence.
Qed.

Lemma where_filter {A B : Type}
  (q : option B) (p : B -> A -> bool) (f : A -> bool) (l : list A) :
  where_ q p (filter f l) = filter (fun x => f x && holds q (fun b => p b x)) l.
Proof. now rewrite where_as_filter, filter_filter. Qed.

Lemma holds_spec {B : Type} (q : option B) (p : B -> bool) :
  holds q p = true <-> (forall b, q = Some b -> p b = true).
Proof.
  destruct q as [b|]; simpl.
  - split; [now intros E ? [= <-]|auto].
  - split; [discriminate|reflexivity].
Qed.

Ltac list_as_filter :=
  cbv zeta; rewrite (where_as_filter _ _ (PyDict.values _));
  rewrite !where_filter; apply filter_ext.

Lemma list_courses_filter code dept_id instructor min_credits max_credits s :
  list_courses code dept_id instructor min_credits max_credits s
  = filter (course_matches code dept_id instructor min_credits max_credits)
      (PyDict.values (courses s)).
Proof.
  unfold list_courses. list_as_filter.
  intros c. unfold course_matches.
  destruct min_credits; simpl; now rewrite ?Z.geb_leb.
Qed.

Lemma list_persons_filter
  uni first_name last_name email phone birth_date city country s :
  list_persons uni first_name last_name email phone birth_date city country s
  = filter (person_matches uni first_name last_name email phone birth_date
              city country)
      (PyDict.values (persons s)).
Proof. unfold list_persons. list_as_filter. reflexivity. Qed.

Lemma list_addresses_filter street city state postal_code country s :
  list_addresses street city state postal_code country s
  = filter (address_matches street city state postal_code country)
      (PyDict.values (addresses s)).
Proof. unfold list_addresses. list_as_filter. reflexivity. Qed.

Lemma list_enrollments_filter uni course_code year term status s :
  list_enrollments uni course_code year term status s
  = filter (enrollment_matches uni course_code year term status)
      (PyDict.values (enrollments s)).
Proof. unfold list_enrollments. list_as_filter. reflexivity. Qed.

Lemma course_matches_spec code dept_id instructor min_credits max_credits c :
  course_matches code dept_id instructor min_credits max_credits c = true <->
  (forall q, code = Some q -> Course.code c = q) /\
  (forall q, dept_id = Some q -> Course.dept_id c = q) /\
  (forall q, instructor = Some q -> Course.instructor c = q) /\
  (forall q, min_credits = Some q -> q <= Course.credits c) /\
  (forall q, max_credits = Some q -> Course.credits c <= q).
Proof.
  unfold course_matches. rewrite !andb_true_iff, !holds_spec.
  setoid_rewrite String.eqb_eq. setoid_rewrite Z.leb_le. tauto.
Qed.

Lemma values_set_absent {K V : Type} `{Hashable K} (d : dict K V) (k : K) (v : V) :
  PyDict.mem k d = false ->
  PyDict.values (PyDict.set k v d) = PyDict.values d ++ [v].
Proof.
  intros M. rewrite set_absent by exact M.
  unfold PyDict.values. now rewrite map_app.
Qed.

(** C7. Every list handler returns the values of its dictionary, in the order
    of the dictionary, that satisfy all supplied criteria, the credit bounds
    being inclusive; without criteria it returns all the values. The order of
    the dictionary is the order of insertion: a course or person created
    under a new key is listed last, and an update keeps the order of the keys. *)
Theorem list_matching_in_insertion_order (s : store) :
  (forall code dept_id instructor min_credits max_credits,
      list_courses code dept_id instructor min_credits max_credits s
      = filter (course_matches code dept_id instructor min_credits max_credits)
          (PyDict.values (courses s))) /\
  (forall code dept_id instructor min_credits max_credits c,
      course_matches code dept_id instructor min_credits max_credits c = true <->
      (forall q, code = Some q -> Course.code c = q) /\
      (forall q, dept_id = Some q -> Course.dept_id c = q) /\
      (forall q, instructor = Some q -> Course.instructor c = q) /\
      (forall q, min_credits = Some q -> q <= Course.credits c) /\
      (forall q, max_credits = Some q -> Course.credits c <= q)) /\
  (forall uni first_name last_name email phone birth_date city country,
      list_persons uni first_name last_name email phone birth_date city country s
      = filter (person_matches uni first_name last_name email phone birth_date
                  city country)
          (PyDict.values (persons s))) /\
  (forall street city state postal_code country,
      list_addresses street city state postal_code country s
      = filter (address_matches street city state postal_code country)
          (PyDict.values (addresses s))) /\
  (forall uni course_code year term status,
      list_enrollments uni course_code year term status s
      = filter (enrollment_matches uni course_code year term status)
          (PyDict.values (enrollments s))) /\
  list_courses None None None None None s = PyDict.values (courses s) /\
  list_persons None None None None None None None None s
  = PyDict.values (persons s) /\
  (forall course,
      PyDict.mem (Course.code course) (courses s) = false ->
      list_courses None None None None None (snd (create_course course s))
      = list_courses None None None None None s ++ [course]) /\
  (forall uuid4 person,
      PyDict.mem uuid4 (persons s) = false ->
      exists person_read,
        fst (create_person uuid4 person s) = Ok 201 person_read /\
        list_persons None None None None None None None None
          (snd (create_person uuid4 person s))
        = list_persons None None None None None None None None s ++ [person_read]) /\
  (forall uuid4 person_id update,
      PyDict.keys (persons (snd (update_person uuid4 person_id update s)))
      = PyDict.keys (persons s)).
Proof.
  repeat apply conj.
  - intros. apply list_courses_filter.
  - intros. apply course_matches_spec.
  - intros. apply list_persons_filter.
  - intros. apply list_addresses_filter.
  - intros. apply list_enrollments_filter.
  - reflexivity.
  - reflexivity.
  - intros course M. rewrite create_course_fresh by exact M.
    unfold list_courses. simpl. now apply values_set_absent.
  - intros uuid4 person M.
    destruct (create_person_stores uuid4 person s) as (p & I & ->).
    exists p. split; [reflexivity|].
    unfold list_persons. simpl. now apply values_set_absent.
  - intros uuid4 person_id update. unfold update_person.
    destruct (PyDict.mem person_id (persons s)) eqn:M; simpl; [|reflexivity].
    destruct (PyDict.get person_id (persons s)); [|reflexivity].
    destruct (PersonRead.validate _ _); [|reflexivity].
    simpl. now rewrite keys_set, M.
Qed.

Lemma list_matching_in_insertion_order_witness :
  PyDict.mem "COMS W4111" (courses fixture_store) = false /\
  list_courses None None None None None
    (snd (create_course
            (Course.mk "COMS W4111" "Databases" "Donald F. Ferguson" 3 "COMS")
            fixture_store))
  = [cloud_computing;
     Course.mk "COMS W4111" "Databases" "Donald F. Ferguson" 3 "COMS"].
Proof.
  split; [reflexivity|].
  destruct (list_matching_in_insertion_order fixture_store)
    as (_ & _ & _ & _ & _ & _ & _ & L & _).
  rewrite (L (Course.mk "COMS W4111" "Databases" "Donald F. Ferguson" 3 "COMS"));
    reflexivity.
Defined.

(* ------------------------------------------------------------------------- *)
(** * The effect of a request on the store *)

Ltac inv_validate H :=
  repeat match type of H with
         | match ?x with _ => _ end = Some _ =>
             let E := fresh "E" in destruct x eqn:E; [|discriminate H]
         end.

Lemma Course_validate_credits (d : fields) (c : Course.t) :
  Course.validate d = Some c -> 0 <= Course.credits c <= 6.
Proof.
  unfold Course.validate. intros V. inv_validate V.
  injection V as <-. simpl. lia.
Qed.

Lemma Enrollment_validate_uni (d : fields) (e : Enrollment.t) :
  Enrollment.validate d = Some e -> 2 <= len (Enrollment.uni e).
Proof.
  unfold Enrollment.validate. intros V. inv_validate V.
  injection V as <-. simpl. lia.
Qed.

(** Re-validating a stored enrollment with its status replaced. *)
Lemma Enrollment_validate_set_status (status : string) (e : Enrollment.t) :
  Enrollment.validate (PyDict.set "status" (VStr status) (Enrollment.model_dump e))
  = if 2 <=? len (Enrollment.uni e) then Some (with_status status e) else None.
Proof. destruct e. reflexivity. Qed.

Lemma create_address_effect uuid4 address s :
  effect s (snd (create_address uuid4 address s)).
Proof.
  unfold create_address.
  destruct (PyDict.mem _ _); [constructor|].
  destruct (AddressRead.validate _ _); simpl; constructor.
Qed.

Lemma update_address_effect uuid4 address_id update s :
  effect s (snd (update_address uuid4 address_id update s)).
Proof.
  unfold update_address.
  destruct (negb _); [constructor|].
  destruct (PyDict.get _ _); [|constructor].
  destruct (AddressRead.validate _ _); simpl; constructor.
Qed.

Lemma create_person_effect uuid4 person s :
  effect s (snd (create_person uuid4 person s)).
Proof.
  unfold create_person.
  destruct (PersonRead.validate _ _); simpl; constructor.
Qed.

Lemma update_person_effect uuid4 person_id update s :
  effect s (snd (update_person uuid4 person_id update s)).
Proof.
  unfold update_person.
  destruct (negb _); [constructor|].
  destruct (PyDict.get _ _); [|constructor].
  destruct (PersonRead.validate _ _); simpl; constructor.
Qed.

Lemma update_enrollment_status_effect uni course_code year term status s :
  effect s (snd (update_enrollment_status uni course_code year term status s)).
Proof.
  unfold update_enrollment_status.
  destruct (negb _); [constructor|].
  destruct (PyDict.get _ _) as [e|] eqn:G; [|constructor].
  rewrite Enrollment_validate_set_status.
  destruct (2 <=? len (Enrollment.uni e)) eqn:L; simpl; [|constructor].
  apply effect_status; [exact G|lia].
Qed.

Lemma with_body_effect {M A : Type} (validate : fields -> option M) body
  (handler : M -> store -> response A * store) s :
  (forall m, validate body = Some m -> effect s (snd (handler m s))) ->
  effect s (snd (with_body validate body handler s)).
Proof.
  unfold with_body. intros Hh.
  destruct (validate body); [auto|constructor].
Qed.

Lemma serve_effect (r : request) (s : store) : effect s (snd (serve r s)).
Proof.
  destruct r; simpl; try constructor.
  - destruct (post_addresses uuid4 body s) as [a s'] eqn:E.
    change s' with (snd (a, s')). rewrite <- E.
    apply with_body_effect. intros. apply create_address_effect.
  - destruct (patch_address uuid4 address_id body s) as [a s'] eqn:E.
    change s' with (snd (a, s')). rewrite <- E.
    apply with_body_effect. intros. apply update_address_effect.
  - destruct (post_persons uuid4 body s) as [a s'] eqn:E.
    change s' with (snd (a, s')). rewrite <- E.
    apply with_body_effect. intros. apply create_person_effect.
  - destruct (patch_person uuid4 person_id body s) as [a s'] eqn:E.
    change s' with (snd (a, s')). rewrite <- E.
    apply with_body_effect. intros. apply update_person_effect.
  - destruct (post_courses body s) as [a s'] eqn:E.
    change s' with (snd (a, s')). rewrite <- E.
    apply with_body_effect. intros c V. unfold create_course.
    destruct (PyDict.mem _ _) eqn:M; simpl; [constructor|].
    apply effect_course; [now apply Course_validate_credits in V|exact M].
  - destruct (ge0 min_credits && ge0 max_credits); constructor.
  - destruct (post_enrollments body s) as [a s'] eqn:E.
    change s' with (snd (a, s')). rewrite <- E.
    apply with_body_effect. intros e V. unfold create_enrollment.
    fold (key_of e).
    destruct (PyDict.mem _ _) eqn:M; simpl; [constructor|].
    apply effect_enrollment; [now apply Enrollment_validate_uni in V|exact M].
  - destruct (update_enrollment_status uni course_code year term status s)
      as [a s'] eqn:E.
    change s' with (snd (a, s')). rewrite <- E.
    apply update_enrollment_status_effect.
Qed.

Lemma effect_coherent (s s' : store) : effect s s' -> coherent s -> coherent s'.
Proof.
  intros [| | |c _ _|e _ _|k e status G _] [Hc He]; split; simpl; auto.
  - intros k c' I. apply In_set in I as [[-> ->]|I]; auto.
  - intros k e' I. apply In_set in I as [[-> ->]|I]; auto.
  - intros k' e' I. apply In_set in I as [[-> ->]|I]; auto.
    apply get_In in G. apply (He _ _ G).
Qed.

Lemma effect_validated (s s' : store) : effect s s' -> validated s -> validated s'.
Proof.
  intros [| | |c Vc _|e Ve _|k e status G Ve] [Hc He]; split; simpl; eauto.
  - intros k c' I. apply In_set in I as [[-> ->]|I]; eauto.
  - intros k e' I. apply In_set in I as [[-> ->]|I]; eauto.
  - intros k' e' I. apply In_set in I as [[-> ->]|I]; eauto.
Qed.

Lemma effect_well_keyed (s s' : store) : effect s s' -> well_keyed s -> well_keyed s'.
Proof.
  intros [| | | | |] (Wp & Wa & Wc & We); repeat split; simpl;
    auto using wf_set.
Qed.

Lemma empty_store_invariant :
  coherent empty_store /\ validated empty_store /\ well_keyed empty_store.
Proof.
  repeat split; simpl; try contradiction; constructor.
Qed.

Lemma reachable_invariant (s : store) :
  reachable s -> coherent s /\ validated s /\ well_keyed s.
Proof.
  induction 1 as [|r s R (C & V & W)].
  - apply empty_store_invariant.
  - pose proof (serve_effect r s) as E.
    split; [|split];
      [eapply effect_coherent|eapply effect_validated|eapply effect_well_keyed];
      eassumption.
Qed.

Lemma reachable_run (rs : list request) (s : store) :
  reachable s -> reachable (run rs s).
Proof.
  revert s. induction rs as [|r rs IH]; simpl; intros s R; [exact R|].
  apply IH. now constructor.
Qed.

Lemma reachable_fixture_store : reachable fixture_store.
Proof. apply reachable_run. constructor. Qed.

(* ------------------------------------------------------------------------- *)
(** * Updating the status of an enrollment *)

Lemma update_enrollment_status_stored (s : store) (e : Enrollment.t) (status : string) :
  PyDict.get (key_of e) (enrollments s) = Some e ->
  2 <= len (Enrollment.uni e) ->
  update_enrollment_status (Enrollment.uni e) (Enrollment.course_code e)
    (Enrollment.year e) (Enrollment.term e) status s
  = (Ok 200 (with_status status e),
     set_enrollments
       (PyDict.set (key_of e) (with_status status e) (enrollments s)) s).
Proof.
  intros G L. unfold update_enrollment_status. fold (key_of e).
  unfold PyDict.mem. rewrite G. cbn [negb]. cbv zeta.
  rewrite Enrollment_validate_set_status.
  destruct (Z.leb_spec 2 (len (Enrollment.uni e))) as [_|N]; [|lia].
  simpl. now rewrite subscript_set.
Qed.

(** C8. For an enrollment stored in a reachable store, PATCH on the path made
    of its own uni, course_code, year and term answers 200 with an enrollment
    that has the supplied status and the uni, course_code, year and term of
    the stored one; that enrollment replaces the stored one under its key, and
    no other entry, key or dictionary changes. *)
Theorem patch_enrollment_rewrites_only_status
  (s : store) (k : string) (e : Enrollment.t) (status : string) :
  reachable s ->
  In (k, e) (enrollments s) ->
  exists e' s',
    update_enrollment_status (Enrollment.uni e) (Enrollment.course_code e)
      (Enrollment.year e) (Enrollment.term e) status s = (Ok 200 e', s') /\
    PyDict.get k (enrollments s') = Some e' /\
    Enrollment.status e' = status /\
    Enrollment.uni e' = Enrollment.uni e /\
    Enrollment.course_code e' = Enrollment.course_code e /\
    Enrollment.year e' = Enrollment.year e /\
    Enrollment.term e' = Enrollment.term e /\
    (forall k', k' <> k ->
                PyDict.get k' (enrollments s') = PyDict.get k' (enrollments s)) /\
    PyDict.keys (enrollments s') = PyDict.keys (enrollments s) /\
    persons s' = persons s /\ addresses s' = addresses s /\ courses s' = courses s.
Proof.
  intros R I.
  destruct (reachable_invariant R) as ([_ C] & [_ V] & (_ & _ & _ & W)).
  pose proof (C _ _ I) as ->. pose proof (V _ _ I) as L.
  pose proof (In_get _ _ W I) as G.
  exists (with_status status e). eexists.
  split; [now apply update_enrollment_status_stored|].
  simpl. rewrite get_set_same, keys_set.
  unfold PyDict.mem. rewrite G.
  repeat split; try reflexivity.
  intros k' N. now apply get_set_other.
Qed.

Lemma patch_enrollment_rewrites_only_status_witness :
  reachable fixture_store /\
  In ("abc1234|COMS W4153|2025|FALL", abc_cloud_fall) (enrollments fixture_store) /\
  exists e' s',
    update_enrollment_status "abc1234" "COMS W4153" 2025 "FALL" "dropped"
      fixture_store = (Ok 200 e', s') /\
    PyDict.get "abc1234|COMS W4153|2025|FALL" (enrollments s') = Some e' /\
    Enrollment.status e' = "dropped" /\
    Enrollment.uni e' = "abc1234" /\
    Enrollment.course_code e' = "COMS W4153" /\
    Enrollment.year e' = 2025 /\
    Enrollment.term e' = "FALL".
Proof.
  assert (In ("abc1234|COMS W4153|2025|FALL", abc_cloud_fall)
            (enrollments fixture_store)) as I by (left; reflexivity).
  split; [exact reachable_fixture_store|]. split; [exact I|].
  destruct (@patch_enrollment_rewrites_only_status fixture_store _ _ "dropped"
              reachable_fixture_store I)
    as (e' & s' & U & G & S & F1 & F2 & F3 & F4 & _).
  exists e', s'. repeat split; assumption.
Defined.

(* ------------------------------------------------------------------------- *)
(** * Coherence of keys and stored values *)

(** C10. In the empty store, and in the store left by any request served from
    a coherent store, hence in every reachable store: every entry of [courses]
    has the code of its course as key, and every entry of [enrollments] has as
    key the composite key built from the uni, course_code, year and term of
    its enrollment. *)
Theorem key_value_coherence_invariant :
  coherent empty_store /\
  (forall r s, coherent s -> coherent (snd (serve r s))) /\
  (forall s, reachable s -> coherent s).
Proof.
  split; [apply empty_store_invariant|]. split.
  - intros r s C. exact (effect_coherent (serve_effect r s) C).
  - intros s R. apply (reachable_invariant R).
Qed.

Lemma key_value_coherence_invariant_witness :
  coherent fixture_store /\
  coherent (snd (serve (PATCH_enrollment "abc1234" "COMS W4153" 2025 "FALL" "dropped")
                   fixture_store)).
Proof.
  assert (coherent fixture_store) as C.
  { split; intros k v I; vm_compute in I; destruct I as [E|[]];
      injection E as <- <-; reflexivity. }
  split; [exact C|].
  exact (proj1 (proj2 key_value_coherence_invariant) _ _ C).
Defined.

(* ------------------------------------------------------------------------- *)
(** * Partial updates *)

Lemma get_exclude_unset_cons (f k : string) (o : option value) l :
  PyDict.get f (exclude_unset ((k, o) :: l))
  = if (f =? k)%string
    then match o with
         | Some v => Some v
         | None => PyDict.get f (exclude_unset l)
         end
    else PyDict.get f (exclude_unset l).
Proof.
  destruct o; simpl; [reflexivity|].
  destruct (String.eqb_spec f k) as [->|N]; reflexivity.
Qed.

Lemma keys_exclude_unset (k : string) l :
  In k (PyDict.keys (exclude_unset l)) -> In k (map fst l).
Proof.
  induction l as [|[k0 [v|]] l IH]; simpl; tauto.
Qed.

Lemma wf_exclude_unset l : NoDup (map fst l) -> PyDict.wf (exclude_unset l).
Proof.
  unfold PyDict.wf.
  induction l as [|[k0 [v|]] l IH]; simpl; intros N;
    inversion N as [|? ? N1 N2]; subst; auto.
  constructor; auto. intros I. now apply N1, keys_exclude_unset.
Qed.

Lemma get_update {K V : Type} `{Hashable K} (k : K) (d u : dict K V) :
  PyDict.wf u ->
  PyDict.get k (PyDict.update d u)
  = match PyDict.get k u with
    | Some v => Some v
    | None => PyDict.get k d
    end.
Proof.
  intros W. destruct (PyDict.get k u) eqn:G.
  - now apply get_update_present.
  - now apply get_update_absent.
Qed.

Ltac parsed_field n :=
  match goal with
  | E : get_upd_str n ?d = Some _ |- _ =>
      unfold get_upd_str in E;
      destruct (PyDict.get n d) as [[]|]; try discriminate E; injection E as <-
  | E : get_upd_addresses n ?d = Some _ |- _ =>
      unfold get_upd_addresses in E;
      destruct (PyDict.get n d) as [[]|]; try discriminate E; injection E as <-
  end.

Ltac field_cases f tac :=
  repeat match goal with
         | |- context [String.eqb f ?n] =>
             destruct (String.eqb_spec f n) as [->|?]; [tac n; reflexivity|]
         end.

Lemma AddressUpdate_dump (body : fields) (u : AddressUpdate.t) (f : string) :
  AddressUpdate.validate body = Some u ->
  PyDict.get f (AddressUpdate.model_dump_exclude_unset u)
  = if among Address_attributes f then PyDict.get f body else None.
Proof.
  unfold AddressUpdate.validate. intros V. inv_validate V. injection V as <-.
  unfold AddressUpdate.model_dump_exclude_unset, among, Address_attributes.
  cbn [AddressUpdate.street AddressUpdate.city AddressUpdate.state
       AddressUpdate.postal_code AddressUpdate.country existsb].
  rewrite !get_exclude_unset_cons.
  field_cases f parsed_field. reflexivity.
Qed.

Lemma PersonUpdate_dump (body : fields) (u : PersonUpdate.t) (f : string) :
  PersonUpdate.validate body = Some u ->
  PyDict.get f (PersonUpdate.model_dump_exclude_unset u)
  = if among Person_attributes f then PyDict.get f body else None.
Proof.
  unfold PersonUpdate.validate. intros V. inv_validate V. injection V as <-.
  unfold PersonUpdate.model_dump_exclude_unset, among, Person_attributes.
  cbn [PersonUpdate.uni PersonUpdate.first_name PersonUpdate.last_name
       PersonUpdate.email PersonUpdate.phone PersonUpdate.birth_date
       PersonUpdate.addresses existsb].
  rewrite !get_exclude_unset_cons.
  field_cases f parsed_field. reflexivity.
Qed.

Lemma AddressUpdate_dump_wf (u : AddressUpdate.t) :
  PyDict.wf (AddressUpdate.model_dump_exclude_unset u).
Proof.
  apply wf_exclude_unset. simpl.
  repeat constructor; simpl; intuition discriminate.
Qed.

Lemma PersonUpdate_dump_wf (u : PersonUpdate.t) :
  PyDict.wf (PersonUpdate.model_dump_exclude_unset u).
Proof.
  apply wf_exclude_unset. simpl.
  repeat constructor; simpl; intuition discriminate.
Qed.

Ltac validated_field n :=
  match goal with
  | E : get_str n ?d = Some _ |- _ =>
      unfold get_str in E;
      destruct (PyDict.get n d) as [[]|]; try discriminate E; injection E as <-
  | E : get_addresses n ?d = Some _ |- _ =>
      unfold get_addresses in E;
      destruct (PyDict.get n d) as [[]|]; try discriminate E; injection E as <-
  | E : get_uuid _ n ?d = Some _ |- _ =>
      unfold get_uuid in E;
      destruct (PyDict.get n d) as [[]|]; try discriminate E;
      try congruence; injection E as <-
  end.

(** The dump of a validated model has the values of the keyword arguments. *)
Lemma Address_validate_dump (uuid4 : UUID) (d : fields) (a : Address.t) (f : string) :
  Address_validate uuid4 d = Some a ->
  PyDict.get "id" d <> None ->
  PyDict.get f (Address_model_dump a)
  = if among ("id" :: Address_attributes) f then PyDict.get f d else None.
Proof.
  unfold Address_validate. intros V I. inv_validate V. injection V as <-.
  unfold Address_model_dump, among, Address_attributes.
  cbn [Address.id Address.street Address.city Address.state Address.postal_code
       Address.country existsb PyDict.get key_eqb Hashable_string].
  field_cases f validated_field. reflexivity.
Qed.

Lemma PersonRead_validate_dump (uuid4 : UUID) (d : fields) (p : PersonRead.t) (f : string) :
  PersonRead.validate uuid4 d = Some p ->
  PyDict.get "id" d <> None ->
  PyDict.get f (PersonRead.model_dump p)
  = if among ("id" :: Person_attributes) f then PyDict.get f d else None.
Proof.
  unfold PersonRead.validate. intros V I. inv_validate V. injection V as <-.
  unfold PersonRead.model_dump, among, Person_attributes.
  cbn [PersonRead.id PersonRead.uni PersonRead.first_name PersonRead.last_name
       PersonRead.email PersonRead.phone PersonRead.birth_date PersonRead.addresses
       existsb PyDict.get key_eqb Hashable_string].
  field_cases f validated_field. reflexivity.
Qed.

Lemma Address_model_dump_keys (a : Address.t) (f : string) :
  PyDict.get f (Address_model_dump a)
  = if among ("id" :: Address_attributes) f
    then PyDict.get f (Address_model_dump a) else None.
Proof.
  unfold Address_model_dump, among, Address_attributes.
  cbn [existsb PyDict.get key_eqb Hashable_string].
  field_cases f ltac:(fun n => idtac). reflexivity.
Qed.

Lemma PersonRead_model_dump_keys (p : PersonRead.t) (f : string) :
  PyDict.get f (PersonRead.model_dump p)
  = if among ("id" :: Person_attributes) f
    then PyDict.get f (PersonRead.model_dump p) else None.
Proof.
  unfold PersonRead.model_dump, among, Person_attributes.
  cbn [existsb PyDict.get key_eqb Hashable_string].
  field_cases f ltac:(fun n => idtac). reflexivity.
Qed.

Lemma among_cons (n : string) (names : list string) (f : string) :
  among (n :: names) f = (f =? n)%string || among names f.
Proof. reflexivity. Qed.

(** The fields of the entity that [update_address] stores. *)
Lemma Address_merge (uuid4 : UUID) (body : fields) (u : AddressUpdate.t)
  (a a' : Address.t) (f : string) :
  AddressUpdate.validate body = Some u ->
  AddressRead.validate uuid4
    (PyDict.update (AddressRead.model_dump a)
       (AddressUpdate.model_dump_exclude_unset u)) = Some a' ->
  PyDict.get f (AddressRead.model_dump a')
  = match (if among Address_attributes f then PyDict.get f body else None) with
    | Some v => Some v
    | None => PyDict.get f (AddressRead.model_dump a)
    end.
Proof.
  intros Vu Va.
  assert (forall g, PyDict.get g (PyDict.update (AddressRead.model_dump a)
                                    (AddressUpdate.model_dump_exclude_unset u))
                    = match (if among Address_attributes g
                             then PyDict.get g body else None) with
                      | Some v => Some v
                      | None => PyDict.get g (AddressRead.model_dump a)
                      end) as M.
  { intros g. rewrite get_update by apply AddressUpdate_dump_wf.
    now rewrite (@AddressUpdate_dump body u g Vu). }
  rewrite (@Address_validate_dump uuid4 _ a' f Va) by (rewrite M; discriminate).
  rewrite M, among_cons.
  destruct (among Address_attributes f) eqn:A.
  - now rewrite orb_true_r.
  - rewrite orb_false_r.
    rewrite (Address_model_dump_keys a f), among_cons, A, orb_false_r.
    now destruct (f =? "id")%string.
Qed.

Lemma PersonRead_merge (uuid4 : UUID) (body : fields) (u : PersonUpdate.t)
  (p p' : PersonRead.t) (f : string) :
  PersonUpdate.validate body = Some u ->
  PersonRead.validate uuid4
    (PyDict.update (PersonRead.model_dump p)
       (PersonUpdate.model_dump_exclude_unset u)) = Some p' ->
  PyDict.get f (PersonRead.model_dump p')
  = match (if among Person_attributes f then PyDict.get f body else None) with
    | Some v => Some v
    | None => PyDict.get f (PersonRead.model_dump p)
    end.
Proof.
  intros Vu Vp.
  assert (forall g, PyDict.get g (PyDict.update (PersonRead.model_dump p)
                                    (PersonUpdate.model_dump_exclude_unset u))
                    = match (if among Person_attributes g
                             then PyDict.get g body else None) with
                      | Some v => Some v
                      | None => PyDict.get g (PersonRead.model_dump p)
                      end) as M.
  { intros g. rewrite get_update by apply PersonUpdate_dump_wf.
    now rewrite (@PersonUpdate_dump body u g Vu). }
  rewrite (@PersonRead_validate_dump uuid4 _ p' f Vp) by (rewrite M; discriminate).
  rewrite M, among_cons.
  destruct (among Person_attributes f) eqn:A.
  - now rewrite orb_true_r.
  - rewrite orb_false_r.
    rewrite (PersonRead_model_dump_keys p f), among_cons, A, orb_false_r.
    now destruct (f =? "id")%string.
Qed.

Lemma patch_address_merge
  (uuid4 : UUID) (address_id : UUID) (body : fields) (s : store) (a : Address.t) :
  PyDict.get address_id (addresses s) = Some a ->
  exists a',
    PyDict.get address_id
      (addresses (snd (patch_address uuid4 address_id body s))) = Some a' /\
    Address.id a' = Address.id a /\
    (forall f, PyDict.get f body = None ->
               PyDict.get f (AddressRead.model_dump a')
               = PyDict.get f (AddressRead.model_dump a)) /\
    (forall status_code r,
        fst (patch_address uuid4 address_id body s) = Ok status_code r ->
        status_code = 200 /\ r = a' /\
        forall f v, among Address_attributes f = true ->
                    PyDict.get f body = Some v ->
                    PyDict.get f (AddressRead.model_dump a') = Some v).
Proof.
  intros G. unfold patch_address, with_body.
  destruct (AddressUpdate.validate body) as [u|] eqn:Vu.
  - unfold update_address, PyDict.mem. rewrite G. cbn [negb]. cbv zeta.
    destruct (AddressRead.validate uuid4 _) as [a'|] eqn:Va.
    + cbn [fst snd addresses set_addresses]. rewrite subscript_set, get_set_same.
      exists a'. split; [reflexivity|].
      pose proof (fun f => @Address_merge uuid4 body u a a' f Vu Va) as M.
      split; [|split].
      * specialize (M "id"). simpl in M. congruence.
      * intros f B. rewrite M, B. now destruct (among _ _).
      * intros status_code r E. injection E as <- <-.
        repeat split. intros f v A B. now rewrite M, A, B.
    + exists a. cbn [fst snd]. repeat split; auto; discriminate.
  - exists a. cbn [fst snd]. repeat split; auto; discriminate.
Qed.

Lemma patch_person_merge
  (uuid4 : UUID) (person_id : UUID) (body : fields) (s : store) (p : PersonRead.t) :
  PyDict.get person_id (persons s) = Some p ->
  exists p',
    PyDict.get person_id
      (persons (snd (patch_person uuid4 person_id body s))) = Some p' /\
    PersonRead.id p' = PersonRead.id p /\
    (forall f, PyDict.get f body = None ->
               PyDict.get f (PersonRead.model_dump p')
               = PyDict.get f (PersonRead.model_dump p)) /\
    (forall status_code r,
        fst (patch_person uuid4 person_id body s) = Ok status_code r ->
        status_code = 200 /\ r = p' /\
        forall f v, among Person_attributes f = true ->
                    PyDict.get f body = Some v ->
                    PyDict.get f (PersonRead.model_dump p') = Some v).
Proof.
  intros G. unfold patch_person, with_body.
  destruct (PersonUpdate.validate body) as [u|] eqn:Vu.
  - unfold update_person, PyDict.mem. rewrite G. cbn [negb]. cbv zeta.
    destruct (PersonRead.validate uuid4 _) as [p'|] eqn:Vp.
    + cbn [fst snd persons set_persons]. rewrite subscript_set, get_set_same.
      exists p'. split; [reflexivity|].
      pose proof (fun f => @PersonRead_merge uuid4 body u p p' f Vu Vp) as M.
      split; [|split].
      * specialize (M "id"). simpl in M. congruence.
      * intros f B. rewrite M, B. now destruct (among _ _).
      * intros status_code r E. injection E as <- <-.
        repeat split. intros f v A B. now rewrite M, A, B.
    + exists p. cbn [fst snd]. repeat split; auto; discriminate.
  - exists p. cbn [fst snd]. repeat split; auto; discriminate.
Qed.

(** C3. PATCH on a stored Address or Person, with any request body: the entity
    stored under the identity afterwards has the identity field of the one
    stored before, also when the body has an [id]; every field that the body
    omits has the value it had before; and when the update succeeds, the
    answer is 200 with the stored entity, in which every attribute that the
    body supplies has the supplied value. *)
Theorem partial_update_keeps_omitted_fields_and_identity
  (uuid4 : UUID) (body : fields) (s : store) :
  (forall address_id a,
      PyDict.get address_id (addresses s) = Some a ->
      exists a',
        PyDict.get address_id
          (addresses (snd (patch_address uuid4 address_id body s))) = Some a' /\
        Address.id a' = Address.id a /\
        (forall f, PyDict.get f body = None ->
                   PyDict.get f (AddressRead.model_dump a')
                   = PyDict.get f (AddressRead.model_dump a)) /\
        (forall status_code r,
            fst (patch_address uuid4 address_id body s) = Ok status_code r ->
            status_code = 200 /\ r = a' /\
            forall f v, among Address_attributes f = true ->
                        PyDict.get f body = Some v ->
                        PyDict.get f (AddressRead.model_dump a') = Some v)) /\
  (forall person_id p,
      PyDict.get person_id (persons s) = Some p ->
      exists p',
        PyDict.get person_id
          (persons (snd (patch_person uuid4 person_id body s))) = Some p' /\
        PersonRead.id p' = PersonRead.id p /\
        (forall f, PyDict.get f body = None ->
                   PyDict.get f (PersonRead.model_dump p')
                   = PyDict.get f (PersonRead.model_dump p)) /\
        (forall status_code r,
            fst (patch_person uuid4 person_id body s) = Ok status_code r ->
            status_code = 200 /\ r = p' /\
            forall f v, among Person_attributes f = true ->
                        PyDict.get f body = Some v ->
                        PyDict.get f (PersonRead.model_dump p') = Some v)).
Proof.
  split.
  - intros address_id a G. now apply patch_address_merge.
  - intros person_id p G. now apply patch_person_merge.
Qed.

Lemma partial_update_keeps_omitted_fields_and_identity_witness :
  PyDict.get 11%N (addresses fixture_store) = Some low_library /\
  fst (patch_address 5%N 11%N [("id", VUuid 99%N); ("city", VStr "Boston")]
         fixture_store)
  = Ok 200 (Address.mk 11%N "535 W 116th St" "Boston" "NY" "10027" "USA") /\
  exists a',
    PyDict.get 11%N
      (addresses (snd (patch_address 5%N 11%N
                         [("id", VUuid 99%N); ("city", VStr "Boston")]
                         fixture_store))) = Some a' /\
    Address.id a' = 11%N /\
    PyDict.get "street" (AddressRead.model_dump a') = Some (VStr "535 W 116th St") /\
    PyDict.get "city" (AddressRead.model_dump a') = Some (VStr "Boston").
Proof.
  assert (PyDict.get 11%N (addresses fixture_store) = Some low_library) as G
    by reflexivity.
  split; [exact G|]. split; [reflexivity|].
  destruct (proj1 (partial_update_keeps_omitted_fields_and_identity
                     5%N [("id", VUuid 99%N); ("city", VStr "Boston")]
                     fixture_store) 11%N low_library G)
    as (a' & S & I & F & U).
  exists a'. split; [exact S|]. split; [exact I|]. split.
  - rewrite (F "street"); reflexivity.
  - destruct (U 200 (Address.mk 11%N "535 W 116th St" "Boston" "NY" "10027" "USA"))
      as (_ & _ & V); [reflexivity|].
    apply V; reflexivity.
Defined.

(* ------------------------------------------------------------------------- *)
(** * Schema validation *)

(** C9. A Course body whose credits are below 0 or above 6 and an Enrollment
    body whose uni has fewer than 2 characters fail validation, and their POST
    is answered with ValidationError and leaves the store as it was; a body
    with every field of its declared type, credits within 0..6 and a uni of at
    least 2 characters is accepted with exactly those field values. Validation
    is a function of the body alone. *)
Theorem schema_validation_constraints (d : fields) :
  (forall credits,
      PyDict.get "credits" d = Some (VInt credits) ->
      credits < 0 \/ 6 < credits ->
      Course.validate d = None /\
      forall s, post_courses d s = (ValidationError, s)) /\
  (forall uni,
      PyDict.get "uni" d = Some (VStr uni) ->
      len uni < 2 ->
      Enrollment.validate d = None /\
      forall s, post_enrollments d s = (ValidationError, s)) /\
  (forall code title instructor credits dept_id,
      PyDict.get "code" d = Some (VStr code) ->
      PyDict.get "title" d = Some (VStr title) ->
      PyDict.get "instructor" d = Some (VStr instructor) ->
      PyDict.get "credits" d = Some (VInt credits) ->
      PyDict.get "dept_id" d = Some (VStr dept_id) ->
      0 <= credits <= 6 ->
      Course.validate d = Some (Course.mk code title instructor credits dept_id)) /\
  (forall uni course_code year term status,
      PyDict.get "uni" d = Some (VStr uni) ->
      PyDict.get "course_code" d = Some (VStr course_code) ->
      PyDict.get "year" d = Some (VInt year) ->
      PyDict.get "term" d = Some (VStr term) ->
      PyDict.get "status" d = Some (VStr status) ->
      2 <= len uni ->
      Enrollment.validate d
      = Some (Enrollment.mk uni course_code year term status)).
Proof.
  repeat apply conj.
  - intros credits G R.
    assert (Course.validate d = None) as V.
    { unfold Course.validate, get_int. rewrite G.
      destruct (get_str "code" d); [|reflexivity].
      destruct (get_str "title" d); [|reflexivity].
      destruct (get_str "instructor" d); [|reflexivity].
      destruct (get_str "dept_id" d); [|reflexivity].
      destruct (Z.leb_spec 0 credits), (Z.leb_spec credits 6);
        simpl; try reflexivity; lia. }
    split; [exact V|]. intros s. unfold post_courses, with_body. now rewrite V.
  - intros uni G R.
    assert (Enrollment.validate d = None) as V.
    { unfold Enrollment.validate, get_str at 1. rewrite G.
      destruct (get_str "course_code" d); [|reflexivity].
      destruct (get_int "year" d); [|reflexivity].
      destruct (get_str "term" d); [|reflexivity].
      destruct (get_str "status" d); [|reflexivity].
      destruct (Z.leb_spec 2 (len uni)); [lia|reflexivity]. }
    split; [exact V|]. intros s. unfold post_enrollments, with_body. now rewrite V.
  - intros code title instructor credits dept_id G1 G2 G3 G4 G5 R.
    unfold Course.validate, get_str, get_int. rewrite G1, G2, G3, G4, G5.
    destruct (Z.leb_spec 0 credits), (Z.leb_spec credits 6);
      simpl; try reflexivity; lia.
  - intros uni course_code year term status G1 G2 G3 G4 G5 R.
    unfold Enrollment.validate, get_str, get_int. rewrite G1, G2, G3, G4, G5.
    destruct (Z.leb_spec 2 (len uni)); [reflexivity|lia].
Qed.

Lemma schema_validation_constraints_witness :
  PyDict.get "credits"
    (Course.model_dump (Course.mk "COMS W4153" "Cloud Computing"
                          "Donald F. Ferguson" 7 "COMS"))
  = Some (VInt 7) /\
  (7 < 0 \/ 6 < 7) /\
  post_courses
    (Course.model_dump (Course.mk "COMS W4153" "Cloud Computing"
                          "Donald F. Ferguson" 7 "COMS")) empty_store
  = (ValidationError, empty_store).
Proof.
  assert (7 < 0 \/ 6 < 7) as R by (right; lia).
  split; [reflexivity|]. split; [exact R|].
  apply (proj1 (schema_validation_constraints
                  (Course.model_dump (Course.mk "COMS W4153" "Cloud Computing"
                                        "Donald F. Ferguson" 7 "COMS")))
           7 eq_refl R).
Defined.

(* ------------------------------------------------------------------------- *)
(** * Further facts about dictionaries *)

Lemma set_same_value {K V : Type} `{Hashable K} (d : dict K V) (k : K) (v : V) :
  PyDict.get k d = Some v -> PyDict.set k v d = d.
Proof.
  induction d as [|[k0 v0] d IH]; simpl; [discriminate|].
  destruct (key_eqb_spec k k0) as [->|N]; intros E.
  - now injection E as ->.
  - now rewrite IH.
Qed.

Lemma set_set {K V : Type} `{Hashable K} (d : dict K V) (k : K) (v w : V) :
  PyDict.set k w (PyDict.set k v d) = PyDict.set k w d.
Proof.
  induction d as [|[k0 v0] d IH]; simpl.
  - now rewrite key_eqb_refl.
  - destruct (key_eqb_spec k k0) as [->|N]; simpl.
    + now rewrite key_eqb_refl.
    + rewrite key_eqb_false by exact N. now rewrite IH.
Qed.

Lemma In_values {K V : Type} (d : dict K V) (v : V) :
  In v (PyDict.values d) <-> exists k, In (k, v) d.
Proof.
  unfold PyDict.values. rewrite in_map_iff. split.
  - intros ([k v'] & E & I). simpl in E. subst. eauto.
  - intros (k & I). exists (k, v). auto.
Qed.

(** In a dictionary filed by [keyf], the keys are the [keyf] of the values. *)
Lemma keys_of_values {K V : Type} (keyf : V -> K) (d : dict K V) :
  (forall k v, In (k, v) d -> k = keyf v) ->
  map keyf (PyDict.values d) = PyDict.keys d.
Proof.
  unfold PyDict.values, PyDict.keys. rewrite map_map.
  intros C. apply map_ext_in. intros [k v] I. simpl. symmetry. auto.
Qed.

Lemma extends_refl {A : Type} (l : list A) : extends l l.
Proof. exists []. now rewrite app_nil_r. Qed.

Lemma extends_trans {A : Type} (l1 l2 l3 : list A) :
  extends l1 l2 -> extends l2 l3 -> extends l1 l3.
Proof. intros [t ->] [u ->]. exists (t ++ u). now rewrite app_assoc. Qed.

Lemma keys_set_extends {K V : Type} `{Hashable K} (d : dict K V) (k : K) (v : V) :
  extends (PyDict.keys d) (PyDict.keys (PyDict.set k v d)).
Proof.
  rewrite keys_set. destruct (PyDict.mem k d).
  - apply extends_refl.
  - now exists [k].
Qed.

(** Selecting from a dictionary filed by [keyf] with a test that fixes the
    key: at most the value stored under that key. *)
Lemma filter_by_key {K V : Type} `{Hashable K}
  (keyf : V -> K) (p : V -> bool) (q : K) (d : dict K V) :
  PyDict.wf d ->
  (forall k v, In (k, v) d -> k = keyf v) ->
  (forall v, p v = true -> keyf v = q) ->
  filter p (PyDict.values d)
  = match PyDict.get q d with
    | Some v => if p v then [v] else []
    | None => []
    end.
Proof.
  unfold PyDict.wf. intros W C P.
  assert (forall d' : dict K V,
             (forall k v, In (k, v) d' -> k = keyf v) ->
             ~ In q (PyDict.keys d') -> filter p (PyDict.values d') = []) as Z.
  { induction d' as [|[k v] d' IH]; simpl; intros C' N; [reflexivity|].
    destruct (p v) eqn:E.
    - exfalso. apply N. left. simpl.
      rewrite (C' k v) by (left; reflexivity). now apply P.
    - apply IH; [intros; apply C'; right; assumption|].
      intros I. apply N. now right. }
  induction d as [|[k v] d IH]; simpl in *; [reflexivity|].
  inversion W as [|? ? N W']; subst.
  assert (k = keyf v) as Ek by (apply C; left; reflexivity).
  assert (forall k' v', In (k', v') d -> k' = keyf v') as C'
    by (intros; apply C; right; assumption).
  destruct (p v) eqn:E.
  - rewrite <- (P v E), <- Ek, key_eqb_refl, E.
    rewrite Z; auto. now rewrite <- (P v E), <- Ek.
  - destruct (key_eqb_spec q k) as [->|D].
    + rewrite E. apply Z; auto.
    + apply IH; auto.
Qed.

(* ------------------------------------------------------------------------- *)
(** * What each handler leaves in the store *)

Lemma AddressUpdate_dump_no_id (u : AddressUpdate.t) :
  PyDict.get "id" (AddressUpdate.model_dump_exclude_unset u) = None.
Proof.
  unfold AddressUpdate.model_dump_exclude_unset.
  now rewrite !get_exclude_unset_cons.
Qed.

Lemma PersonUpdate_dump_no_id (u : PersonUpdate.t) :
  PyDict.get "id" (PersonUpdate.model_dump_exclude_unset u) = None.
Proof.
  unfold PersonUpdate.model_dump_exclude_unset.
  now rewrite !get_exclude_unset_cons.
Qed.

Lemma Address_validate_id (uuid4 : UUID) (d : fields) (a : Address.t) (i : UUID) :
  PyDict.get "id" d = Some (VUuid i) ->
  Address_validate uuid4 d = Some a -> Address.id a = i.
Proof.
  unfold Address_validate, get_uuid. intros G V. rewrite G in V.
  inv_validate V. now injection V as <-.
Qed.

Lemma PersonRead_validate_id (uuid4 : UUID) (d : fields) (p : PersonRead.t) (i : UUID) :
  PyDict.get "id" d = Some (VUuid i) ->
  PersonRead.validate uuid4 d = Some p -> PersonRead.id p = i.
Proof.
  unfold PersonRead.validate, get_uuid. intros G V. rewrite G in V.
  inv_validate V. now injection V as <-.
Qed.

(** The store after [create_address]. *)
Lemma create_address_store uuid4 address s :
  snd (create_address uuid4 address s)
  = if PyDict.mem (Address.id address) (addresses s) then s
    else set_addresses (PyDict.set (Address.id address) address (addresses s)) s.
Proof.
  destruct (PyDict.mem (Address.id address) (addresses s)) eqn:M.
  - unfold create_address. now rewrite M.
  - now rewrite create_address_fresh.
Qed.

(** The store after [update_address]: as it was, or with the stored address
    replaced by one that has the same [id]. *)
Lemma update_address_store uuid4 address_id update s :
  snd (update_address uuid4 address_id update s) = s \/
  exists a a',
    PyDict.get address_id (addresses s) = Some a /\
    Address.id a' = Address.id a /\
    update_address uuid4 address_id update s
    = (Ok 200 a', set_addresses (PyDict.set address_id a' (addresses s)) s).
Proof.
  unfold update_address, PyDict.mem.
  destruct (PyDict.get address_id (addresses s)) as [a|] eqn:G; [|now left].
  cbn [negb]. cbv zeta.
  destruct (AddressRead.validate uuid4 _) as [a'|] eqn:V; [|now left].
  right. exists a, a'. split; [reflexivity|]. split.
  - eapply Address_validate_id; [|exact V].
    now rewrite get_update_absent by apply AddressUpdate_dump_no_id.
  - cbn [addresses set_addresses]. now rewrite subscript_set.
Qed.

Lemma update_person_store uuid4 person_id update s :
  snd (update_person uuid4 person_id update s) = s \/
  exists p p',
    PyDict.get person_id (persons s) = Some p /\
    PersonRead.id p' = PersonRead.id p /\
    update_person uuid4 person_id update s
    = (Ok 200 p', set_persons (PyDict.set person_id p' (persons s)) s).
Proof.
  unfold update_person, PyDict.mem.
  destruct (PyDict.get person_id (persons s)) as [p|] eqn:G; [|now left].
  cbn [negb]. cbv zeta.
  destruct (PersonRead.validate uuid4 _) as [p'|] eqn:V; [|now left].
  right. exists p, p'. split; [reflexivity|]. split.
  - eapply PersonRead_validate_id; [|exact V].
    now rewrite get_update_absent by apply PersonUpdate_dump_no_id.
  - cbn [persons set_persons]. now rewrite subscript_set.
Qed.

Lemma create_course_store course s :
  create_course course s
  = if PyDict.mem (Course.code course) (courses s)
    then (HTTPException 400 "Course with this code already exists", s)
    else (Ok 201 course,
          set_courses (PyDict.set (Course.code course) course (courses s)) s).
Proof. reflexivity. Qed.

Lemma create_enrollment_store e s :
  create_enrollment e s
  = if PyDict.mem (key_of e) (enrollments s)
    then (HTTPException 400
            "Enrollment already exists for this (uni, course, year, term)", s)
    else (Ok 201 e, set_enrollments (PyDict.set (key_of e) e (enrollments s)) s).
Proof. reflexivity. Qed.

(** The store after [update_enrollment_status]. *)
Lemma update_enrollment_status_store uni course_code year term status s :
  update_enrollment_status uni course_code year term status s
  = match PyDict.get (_enroll_key uni course_code year term) (enrollments s) with
    | None => (HTTPException 404 "Enrollment not found", s)
    | Some e =>
        if 2 <=? len (Enrollment.uni e)
        then (Ok 200 (with_status status e),
              set_enrollments
                (PyDict.set (_enroll_key uni course_code year term)
                   (with_status status e) (enrollments s)) s)
        else (ValidationError, s)
    end.
Proof.
  unfold update_enrollment_status, PyDict.mem.
  destruct (PyDict.get _ (enrollments s)) as [e|]; [|reflexivity].
  cbn [negb]. cbv zeta. rewrite Enrollment_validate_set_status.
  destruct (2 <=? len (Enrollment.uni e)); [|reflexivity].
  cbn [enrollments set_enrollments]. now rewrite subscript_set.
Qed.

(** The store after a request is the store after its handler. *)
Lemma serve_store (r : request) (s : store) :
  snd (serve r s)
  = match r with
    | POST_addresses uuid4 body => snd (post_addresses uuid4 body s)
    | PATCH_address uuid4 address_id body =>
        snd (patch_address uuid4 address_id body s)
    | POST_persons uuid4 body => snd (post_persons uuid4 body s)
    | PATCH_person uuid4 person_id body =>
        snd (patch_person uuid4 person_id body s)
    | POST_courses body => snd (post_courses body s)
    | POST_enrollments body => snd (post_enrollments body s)
    | PATCH_enrollment uni course_code year term status =>
        snd (update_enrollment_status uni course_code year term status s)
    | _ => s
    end.
Proof.
  destruct r; simpl; try reflexivity;
    match goal with
    | |- snd (let (_, _) := ?x in _) = _ => now destruct x
    | |- snd (if ?b then _ else _) = _ => now destruct b
    end.
Qed.

Lemma with_body_store {M A : Type} (validate : fields -> option M) body
  (handler : M -> store -> response A * store) s :
  snd (with_body validate body handler s)
  = match validate body with
    | Some m => snd (handler m s)
    | None => s
    end.
Proof. unfold with_body. now destruct (validate body). Qed.

(* ------------------------------------------------------------------------- *)
(** * Identities of addresses and persons *)

Lemma serve_id_coherent (r : request) (s : store) :
  id_coherent s -> id_coherent (snd (serve r s)).
Proof.
  intros [Ha Hp]. rewrite serve_store.
  destruct r; try (split; assumption).
  - unfold post_addresses. rewrite with_body_store.
    destruct (AddressCreate.validate uuid4 body) as [a|]; [|split; assumption].
    rewrite create_address_store.
    destruct (PyDict.mem _ _); split; simpl; auto.
    intros k a' I. apply In_set in I as [[-> ->]|I]; auto.
  - unfold patch_address. rewrite with_body_store.
    destruct (AddressUpdate.validate body) as [u|]; [|split; assumption].
    destruct (update_address_store uuid4 address_id u s)
      as [->|(a & a' & G & I & ->)]; split; simpl; auto.
    intros k a'' J. apply In_set in J as [[-> ->]|J]; auto.
    rewrite I. apply Ha. now apply get_In.
  - unfold post_persons. rewrite with_body_store.
    destruct (PersonCreate.validate body) as [p|]; [|split; assumption].
    destruct (create_person_stores uuid4 p s) as (pr & I & ->).
    split; simpl; auto.
    intros k p' J. apply In_set in J as [[-> ->]|J]; auto.
  - unfold patch_person. rewrite with_body_store.
    destruct (PersonUpdate.validate body) as [u|]; [|split; assumption].
    destruct (update_person_store uuid4 person_id u s)
      as [->|(p & p' & G & I & ->)]; split; simpl; auto.
    intros k p'' J. apply In_set in J as [[-> ->]|J]; auto.
    rewrite I. apply Hp. now apply get_In.
  - unfold post_courses. rewrite with_body_store.
    destruct (Course.validate body) as [c|]; [|split; assumption].
    rewrite create_course_store.
    destruct (PyDict.mem _ _); split; assumption.
  - unfold post_enrollments. rewrite with_body_store.
    destruct (Enrollment.validate body) as [e|]; [|split; assumption].
    rewrite create_enrollment_store.
    destruct (PyDict.mem _ _); split; assumption.
  - rewrite update_enrollment_status_store.
    destruct (PyDict.get _ _) as [e|]; [|split; assumption].
    destruct (2 <=? len _); split; assumption.
Qed.

Lemma reachable_id_coherent (s : store) : reachable s -> id_coherent s.
Proof.
  induction 1 as [|r s R IH].
  - split; simpl; contradiction.
  - now apply serve_id_coherent.
Qed.

(* ------------------------------------------------------------------------- *)
(** * Reading by identity *)

Lemma get_address_eq address_id s :
  get_address address_id s
  = match PyDict.get address_id (addresses s) with
    | Some a => Ok 200 a
    | None => HTTPException 404 "Address not found"
    end.
Proof.
  unfold get_address, subscript, PyDict.mem.
  now destruct (PyDict.get address_id (addresses s)).
Qed.

Lemma get_person_eq person_id s :
  get_person person_id s
  = match PyDict.get person_id (persons s) with
    | Some p => Ok 200 p
    | None => HTTPException 404 "Person not found"
    end.
Proof.
  unfold get_person, subscript, PyDict.mem.
  now destruct (PyDict.get person_id (persons s)).
Qed.

Lemma get_course_eq course_code s :
  get_course course_code s
  = match PyDict.get course_code (courses s) with
    | Some c => Ok 200 c
    | None => HTTPException 404 "Course not found"
    end.
Proof.
  unfold get_course, subscript, PyDict.mem.
  now destruct (PyDict.get course_code (courses s)).
Qed.

Lemma get_enrollment_eq uni course_code year term s :
  get_enrollment uni course_code year term s
  = match PyDict.get (_enroll_key uni course_code year term) (enrollments s) with
    | Some e => Ok 200 e
    | None => HTTPException 404 "Enrollment not found"
    end.
Proof.
  unfold get_enrollment, subscript, PyDict.mem.
  now destruct (PyDict.get _ (enrollments s)).
Qed.

(** X1. In every reachable store no two stored addresses have the same id, no
    two stored persons have the same id, no two stored courses have the same
    code, and no two stored enrollments have the same composite key. *)
Theorem stored_identities_unique (s : store) :
  reachable s ->
  NoDup (map Address.id (PyDict.values (addresses s))) /\
  NoDup (map PersonRead.id (PyDict.values (persons s))) /\
  NoDup (map Course.code (PyDict.values (courses s))) /\
  NoDup (map key_of (PyDict.values (enrollments s))).
Proof.
  intros R.
  destruct (reachable_invariant R) as ([Cc Ce] & _ & (Wp & Wa & Wc & We)).
  destruct (reachable_id_coherent R) as [Ca Cp].
  rewrite (keys_of_values Address.id _ Ca), (keys_of_values PersonRead.id _ Cp),
    (keys_of_values Course.code _ Cc), (keys_of_values key_of _ Ce).
  auto.
Qed.

Lemma stored_identities_unique_witness :
  reachable fixture_store /\
  NoDup (map Course.code (PyDict.values (courses fixture_store))).
Proof.
  split; [exact reachable_fixture_store|].
  exact (proj1 (proj2 (proj2
           (stored_identities_unique reachable_fixture_store)))).
Defined.

(** X2. In every reachable store every stored course has between 0 and 6
    credits and every stored enrollment has a uni of at least two characters,
    so the list handlers only return such records. *)
Theorem stored_records_satisfy_constraints (s : store) :
  reachable s ->
  (forall code dept_id instructor min_credits max_credits c,
      In c (list_courses code dept_id instructor min_credits max_credits s) ->
      0 <= Course.credits c <= 6) /\
  (forall uni course_code year term status e,
      In e (list_enrollments uni course_code year term status s) ->
      2 <= len (Enrollment.uni e)).
Proof.
  intros R. destruct (reachable_invariant R) as (_ & [Vc Ve] & _). split.
  - intros code dept_id instructor min_credits max_credits c I.
    rewrite list_courses_filter in I. apply filter_In in I as [I _].
    apply In_values in I as [k I]. eauto.
  - intros uni course_code year term status e I.
    rewrite list_enrollments_filter in I. apply filter_In in I as [I _].
    apply In_values in I as [k I]. eauto.
Qed.

Lemma stored_records_satisfy_constraints_witness :
  reachable fixture_store /\
  In cloud_computing (list_courses None (Some "COMS") None None None fixture_store) /\
  0 <= Course.credits cloud_computing <= 6.
Proof.
  assert (In cloud_computing
            (list_courses None (Some "COMS") None None None fixture_store)) as I
    by (left; reflexivity).
  split; [exact reachable_fixture_store|]. split; [exact I|].
  exact (proj1 (stored_records_satisfy_constraints reachable_fixture_store)
           None (Some "COMS") None None None cloud_computing I).
Defined.

(** X3. In every reachable store a successful get returns a stored record
    with the requested identity: the address or person with the requested id,
    the course with the requested code, an enrollment whose composite key is
    the requested one and, when neither the request nor the enrollment has a
    delimiter in uni or course_code, whose uni, course_code, year and term are
    the requested ones. *)
Theorem get_returns_requested_identity (s : store) :
  reachable s ->
  (forall address_id status_code a,
      get_address address_id s = Ok status_code a ->
      Address.id a = address_id /\ In a (PyDict.values (addresses s))) /\
  (forall person_id status_code p,
      get_person person_id s = Ok status_code p ->
      PersonRead.id p = person_id /\ In p (PyDict.values (persons s))) /\
  (forall course_code status_code c,
      get_course course_code s = Ok status_code c ->
      Course.code c = course_code /\ In c (PyDict.values (courses s))) /\
  (forall uni course_code year term status_code e,
      get_enrollment uni course_code year term s = Ok status_code e ->
      key_of e = _enroll_key uni course_code year term /\
      In e (PyDict.values (enrollments s)) /\
      (pipe_free (uni, course_code, year, term) ->
       pipe_free (identity_of e) ->
       identity_of e = (uni, course_code, year, term))).
Proof.
  intros R.
  destruct (reachable_invariant R) as ([Cc Ce] & _ & _).
  destruct (reachable_id_coherent R) as [Ca Cp].
  repeat apply conj.
  - intros address_id status_code a G. rewrite get_address_eq in G.
    destruct (PyDict.get address_id (addresses s)) as [a0|] eqn:E;
      [|discriminate].
    injection G as _ ->. apply get_In in E.
    split; [symmetry; auto|]. apply In_values. eauto.
  - intros person_id status_code p G. rewrite get_person_eq in G.
    destruct (PyDict.get person_id (persons s)) as [p0|] eqn:E;
      [|discriminate].
    injection G as _ ->. apply get_In in E.
    split; [symmetry; auto|]. apply In_values. eauto.
  - intros course_code status_code c G. rewrite get_course_eq in G.
    destruct (PyDict.get course_code (courses s)) as [c0|] eqn:E;
      [|discriminate].
    injection G as _ ->. apply get_In in E.
    split; [symmetry; auto|]. apply In_values. eauto.
  - intros uni course_code year term status_code e G.
    rewrite get_enrollment_eq in G.
    destruct (PyDict.get _ (enrollments s)) as [e0|] eqn:E; [|discriminate].
    injection G as _ ->. apply get_In in E.
    assert (key_of e = _enroll_key uni course_code year term) as K
      by (symmetry; auto).
    split; [exact K|]. split; [apply In_values; eauto|].
    unfold identity_of. simpl. intros [Pu Pc] [Pu' Pc'].
    destruct (@enroll_key_inj (Enrollment.uni e) (Enrollment.course_code e)
                (Enrollment.year e) (Enrollment.term e)
                uni course_code year term Pu' Pc' Pu Pc K)
      as (-> & -> & -> & ->).
    reflexivity.
Qed.

Lemma get_returns_requested_identity_witness :
  reachable fixture_store /\
  get_course "COMS W4153" fixture_store = Ok 200 cloud_computing /\
  Course.code cloud_computing = "COMS W4153".
Proof.
  assert (get_course "COMS W4153" fixture_store = Ok 200 cloud_computing) as G
    by reflexivity.
  split; [exact reachable_fixture_store|]. split; [exact G|].
  exact (proj1 (proj1 (proj2 (proj2
           (get_returns_requested_identity reachable_fixture_store)))
           "COMS W4153" 200 cloud_computing G)).
Defined.

(** X4. In every reachable store every stored record can be read back under
    its own identity: get on the id of a stored address or person, on the code
    of a stored course, on the uni, course_code, year and term of a stored
    enrollment answers 200 with that record. *)
Theorem stored_record_is_found_by_its_identity (s : store) :
  reachable s ->
  (forall a, In a (PyDict.values (addresses s)) ->
             get_address (Address.id a) s = Ok 200 a) /\
  (forall p, In p (PyDict.values (persons s)) ->
             get_person (PersonRead.id p) s = Ok 200 p) /\
  (forall c, In c (PyDict.values (courses s)) ->
             get_course (Course.code c) s = Ok 200 c) /\
  (forall e, In e (PyDict.values (enrollments s)) ->
             get_enrollment (Enrollment.uni e) (Enrollment.course_code e)
               (Enrollment.year e) (Enrollment.term e) s = Ok 200 e).
Proof.
  intros R.
  destruct (reachable_invariant R) as ([Cc Ce] & _ & (Wp & Wa & Wc & We)).
  destruct (reachable_id_coherent R) as [Ca Cp].
  repeat apply conj.
  - intros a I. apply In_values in I as [k I].
    rewrite get_address_eq, <- (Ca k a I). now rewrite (In_get _ _ Wa I).
  - intros p I. apply In_values in I as [k I].
    rewrite get_person_eq, <- (Cp k p I). now rewrite (In_get _ _ Wp I).
  - intros c I. apply In_values in I as [k I].
    rewrite get_course_eq, <- (Cc k c I). now rewrite (In_get _ _ Wc I).
  - intros e I. apply In_values in I as [k I].
    rewrite get_enrollment_eq. fold (key_of e).
    rewrite <- (Ce k e I). now rewrite (In_get _ _ We I).
Qed.

Lemma stored_record_is_found_by_its_identity_witness :
  reachable fixture_store /\
  In abc_cloud_fall (PyDict.values (enrollments fixture_store)) /\
  get_enrollment "abc1234" "COMS W4153" 2025 "FALL" fixture_store
  = Ok 200 abc_cloud_fall.
Proof.
  assert (In abc_cloud_fall (PyDict.values (enrollments fixture_store))) as I
    by (left; reflexivity).
  split; [exact reachable_fixture_store|]. split; [exact I|].
  exact (proj2 (proj2 (proj2
           (stored_record_is_found_by_its_identity reachable_fixture_store)))
           abc_cloud_fall I).
Defined.

(* ------------------------------------------------------------------------- *)
(** * Failed requests *)

Lemma with_body_failed {M A : Type} (validate : fields -> option M) body
  (handler : M -> store -> response A * store) s :
  (forall m, is_ok (fst (handler m s)) = false -> snd (handler m s) = s) ->
  is_ok (fst (with_body validate body handler s)) = false ->
  snd (with_body validate body handler s) = s.
Proof. unfold with_body. destruct (validate body); auto. Qed.

Lemma create_address_failed uuid4 address s :
  is_ok (fst (create_address uuid4 address s)) = false ->
  snd (create_address uuid4 address s) = s.
Proof.
  destruct (PyDict.mem (Address.id address) (addresses s)) eqn:M.
  - unfold create_address. now rewrite M.
  - rewrite create_address_fresh by exact M. discriminate.
Qed.

Lemma update_address_failed uuid4 address_id update s :
  is_ok (fst (update_address uuid4 address_id update s)) = false ->
  snd (update_address uuid4 address_id update s) = s.
Proof.
  destruct (update_address_store uuid4 address_id update s)
    as [E|(a & a' & _ & _ & ->)]; [auto|discriminate].
Qed.

Lemma create_person_failed uuid4 person s :
  is_ok (fst (create_person uuid4 person s)) = false ->
  snd (create_person uuid4 person s) = s.
Proof.
  destruct (create_person_stores uuid4 person s) as (p & _ & ->). discriminate.
Qed.

Lemma update_person_failed uuid4 person_id update s :
  is_ok (fst (update_person uuid4 person_id update s)) = false ->
  snd (update_person uuid4 person_id update s) = s.
Proof.
  destruct (update_person_store uuid4 person_id update s)
    as [E|(p & p' & _ & _ & ->)]; [auto|discriminate].
Qed.

Lemma create_course_failed course s :
  is_ok (fst (create_course course s)) = false ->
  snd (create_course course s) = s.
Proof.
  rewrite create_course_store.
  destruct (PyDict.mem _ _); [reflexivity|discriminate].
Qed.

Lemma create_enrollment_failed e s :
  is_ok (fst (create_enrollment e s)) = false ->
  snd (create_enrollment e s) = s.
Proof.
  rewrite create_enrollment_store.
  destruct (PyDict.mem _ _); [reflexivity|discriminate].
Qed.

Lemma update_enrollment_status_failed uni course_code year term status s :
  is_ok (fst (update_enrollment_status uni course_code year term status s)) = false ->
  snd (update_enrollment_status uni course_code year term status s) = s.
Proof.
  rewrite update_enrollment_status_store.
  destruct (PyDict.get _ _) as [e|]; [|reflexivity].
  destruct (2 <=? len _); [discriminate|reflexivity].
Qed.

Lemma post_addresses_failed uuid4 body s :
  is_ok (fst (post_addresses uuid4 body s)) = false ->
  snd (post_addresses uuid4 body s) = s.
Proof.
  unfold post_addresses. apply with_body_failed.
  intros m. apply create_address_failed.
Qed.

Lemma patch_address_failed uuid4 address_id body s :
  is_ok (fst (patch_address uuid4 address_id body s)) = false ->
  snd (patch_address uuid4 address_id body s) = s.
Proof.
  unfold patch_address. apply with_body_failed.
  intros m. apply update_address_failed.
Qed.

Lemma post_persons_failed uuid4 body s :
  is_ok (fst (post_persons uuid4 body s)) = false ->
  snd (post_persons uuid4 body s) = s.
Proof.
  unfold post_persons. apply with_body_failed.
  intros m. apply create_person_failed.
Qed.

Lemma patch_person_failed uuid4 person_id body s :
  is_ok (fst (patch_person uuid4 person_id body s)) = false ->
  snd (patch_person uuid4 person_id body s) = s.
Proof.
  unfold patch_person. apply with_body_failed.
  intros m. apply update_person_failed.
Qed.

Lemma post_courses_failed body s :
  is_ok (fst (post_courses body s)) = false -> snd (post_courses body s) = s.
Proof.
  unfold post_courses. apply with_body_failed.
  intros m. apply create_course_failed.
Qed.

Lemma post_enrollments_failed body s :
  is_ok (fst (post_enrollments body s)) = false ->
  snd (post_enrollments body s) = s.
Proof.
  unfold post_enrollments. apply with_body_failed.
  intros m. apply create_enrollment_failed.
Qed.

Ltac failed_by L :=
  match goal with
  | |- context [let (_, _) := ?x in _] =>
      let P := fresh "P" in
      pose proof L as P; destruct x as [a s']; simpl in *; exact P
  end.

(** X5. A request that is answered with an exception leaves the store exactly
    as it was: every handler raises before its assignment, never after. *)
Theorem failed_request_leaves_store_unchanged (r : request) (s : store) :
  succeeded (fst (serve r s)) = false -> snd (serve r s) = s.
Proof.
  destruct r; simpl; try reflexivity.
  - failed_by (post_addresses_failed uuid4 body s).
  - failed_by (patch_address_failed uuid4 address_id body s).
  - failed_by (post_persons_failed uuid4 body s).
  - failed_by (patch_person_failed uuid4 person_id body s).
  - failed_by (post_courses_failed body s).
  - now destruct (ge0 min_credits && ge0 max_credits).
  - failed_by (post_enrollments_failed body s).
  - failed_by (update_enrollment_status_failed uni course_code year term status s).
Qed.

Lemma failed_request_leaves_store_unchanged_witness :
  succeeded (fst (serve (POST_courses (Course.model_dump cloud_computing))
                    fixture_store)) = false /\
  snd (serve (POST_courses (Course.model_dump cloud_computing)) fixture_store)
  = fixture_store.
Proof.
  split; [reflexivity|].
  apply failed_request_leaves_store_unchanged. reflexivity.
Defined.

(* ------------------------------------------------------------------------- *)
(** * What a sequence of requests keeps *)

Lemma effect_keys (s s' : store) :
  effect s s' ->
  extends (PyDict.keys (persons s)) (PyDict.keys (persons s')) /\
  extends (PyDict.keys (addresses s)) (PyDict.keys (addresses s')) /\
  extends (PyDict.keys (courses s)) (PyDict.keys (courses s')) /\
  extends (PyDict.keys (enrollments s)) (PyDict.keys (enrollments s')).
Proof.
  intros [| | | | |]; simpl;
    repeat split; auto using extends_refl, keys_set_extends.
Qed.

(** X6. No sequence of requests removes or reorders an entry: the keys of
    each dictionary after the requests are the keys it had before, in the
    same order, followed by the keys created since. *)
Theorem keys_only_grow (rs : list request) (s : store) :
  extends (PyDict.keys (persons s)) (PyDict.keys (persons (run rs s))) /\
  extends (PyDict.keys (addresses s)) (PyDict.keys (addresses (run rs s))) /\
  extends (PyDict.keys (courses s)) (PyDict.keys (courses (run rs s))) /\
  extends (PyDict.keys (enrollments s)) (PyDict.keys (enrollments (run rs s))).
Proof.
  revert s. induction rs as [|r rs IH]; intros s; simpl.
  - repeat split; apply extends_refl.
  - destruct (effect_keys (serve_effect r s)) as (P & A & C & E).
    destruct (IH (snd (serve r s))) as (P' & A' & C' & E').
    repeat split; eapply extends_trans; eassumption.
Qed.

Lemma effect_course_kept (s s' : store) (k : string) (c : Course.t) :
  effect s s' ->
  PyDict.get k (courses s) = Some c -> PyDict.get k (courses s') = Some c.
Proof.
  intros [| | |c' _ M| |] G; simpl; auto.
  rewrite get_set_other; [exact G|].
  intros ->. unfold PyDict.mem in M. now rewrite G in M.
Qed.

(** X7. A stored course never changes: whatever requests follow, the course
    found under a code is the one that was created under it. *)
Theorem stored_course_never_changes
  (rs : list request) (s : store) (k : string) (c : Course.t) :
  PyDict.get k (courses s) = Some c ->
  PyDict.get k (courses (run rs s)) = Some c.
Proof.
  revert s. induction rs as [|r rs IH]; intros s G; simpl; [exact G|].
  apply IH. exact (@effect_course_kept _ _ k c (serve_effect r s) G).
Qed.

Lemma stored_course_never_changes_witness :
  PyDict.get "COMS W4153" (courses fixture_store) = Some cloud_computing /\
  PyDict.get "COMS W4153"
    (courses (run [POST_courses
                     (Course.model_dump
                        (Course.mk "COMS W4153" "Databases" "Someone" 4 "COMS"))]
                fixture_store))
  = Some cloud_computing.
Proof.
  split; [reflexivity|].
  apply stored_course_never_changes. reflexivity.
Defined.

Lemma effect_enrollment_identity (s s' : store) (k : string) (e : Enrollment.t) :
  effect s s' ->
  PyDict.get k (enrollments s) = Some e ->
  exists e', PyDict.get k (enrollments s') = Some e' /\
             identity_of e' = identity_of e.
Proof.
  intros [| | | |e0 _ M|k0 e0 status G0 _] G; simpl; eauto.
  - exists e. split; [|reflexivity].
    rewrite get_set_other; [exact G|].
    intros ->. unfold PyDict.mem in M. now rewrite G in M.
  - destruct (key_eqb_spec k k0) as [->|N].
    + rewrite get_set_same. exists (with_status status e0).
      split; [reflexivity|]. rewrite G0 in G. now injection G as ->.
    + exists e. now rewrite get_set_other.
Qed.

(** X8. The identity of a stored enrollment never changes: whatever requests
    follow, the enrollment found under its key has the same uni, course_code,
    year and term; only its status can differ. *)
Theorem stored_enrollment_keeps_identity
  (rs : list request) (s : store) (k : string) (e : Enrollment.t) :
  PyDict.get k (enrollments s) = Some e ->
  exists e', PyDict.get k (enrollments (run rs s)) = Some e' /\
             identity_of e' = identity_of e.
Proof.
  revert s e. induction rs as [|r rs IH]; intros s e G; simpl; [eauto|].
  destruct (@effect_enrollment_identity _ _ k e (serve_effect r s) G)
    as (e1 & G1 & I1).
  destruct (IH _ _ G1) as (e2 & G2 & I2).
  exists e2. split; [exact G2|congruence].
Qed.

Lemma stored_enrollment_keeps_identity_witness :
  PyDict.get "abc1234|COMS W4153|2025|FALL" (enrollments fixture_store)
  = Some abc_cloud_fall /\
  exists e',
    PyDict.get "abc1234|COMS W4153|2025|FALL"
      (enrollments
         (run [PATCH_enrollment "abc1234" "COMS W4153" 2025 "FALL" "dropped"]
            fixture_store)) = Some e' /\
    identity_of e' = ("abc1234", "COMS W4153", 2025, "FALL").
Proof.
  split; [reflexivity|].
  apply (@stored_enrollment_keeps_identity
           [PATCH_enrollment "abc1234" "COMS W4153" 2025 "FALL" "dropped"]
           fixture_store "abc1234|COMS W4153|2025|FALL" abc_cloud_fall).
  reflexivity.
Defined.

(* ------------------------------------------------------------------------- *)
(** * One dictionary per route *)

(** X9. A request assigns to no dictionary but the one of its own route:
    only POST /persons and PATCH /persons/{id} can change [persons], only the
    two address routes [addresses], only POST /courses [courses], only POST
    and PATCH on enrollments [enrollments]. *)
Theorem request_writes_only_its_dictionary (r : request) (s : store) :
  (writes_persons r = false -> persons (snd (serve r s)) = persons s) /\
  (writes_addresses r = false -> addresses (snd (serve r s)) = addresses s) /\
  (writes_courses r = false -> courses (snd (serve r s)) = courses s) /\
  (writes_enrollments r = false -> enrollments (snd (serve r s)) = enrollments s).
Proof.
  rewrite serve_store.
  destruct r; simpl; repeat split; try reflexivity; try discriminate; intros _.
  all: try (unfold post_addresses; rewrite with_body_store;
            destruct (AddressCreate.validate _ _); [|reflexivity];
            rewrite create_address_store;
            now destruct (PyDict.mem _ _)).
  all: try (unfold patch_address; rewrite with_body_store;
            destruct (AddressUpdate.validate _) as [u|]; [|reflexivity];
            now destruct (update_address_store uuid4 address_id u s)
              as [->|(a & a' & _ & _ & ->)]).
  all: try (unfold post_persons; rewrite with_body_store;
            destruct (PersonCreate.validate _) as [p|]; [|reflexivity];
            now destruct (create_person_stores uuid4 p s) as (pr & _ & ->)).
  all: try (unfold patch_person; rewrite with_body_store;
            destruct (PersonUpdate.validate _) as [u|]; [|reflexivity];
            now destruct (update_person_store uuid4 person_id u s)
              as [->|(p & p' & _ & _ & ->)]).
  all: try (unfold post_courses; rewrite with_body_store;
            destruct (Course.validate _); [|reflexivity];
            rewrite create_course_store; now destruct (PyDict.mem _ _)).
  all: try (unfold post_enrollments; rewrite with_body_store;
            destruct (Enrollment.validate _); [|reflexivity];
            rewrite create_enrollment_store; now destruct (PyDict.mem _ _)).
  all: rewrite update_enrollment_status_store;
    destruct (PyDict.get _ _); [|reflexivity];
    now destruct (2 <=? len _).
Qed.

Lemma request_writes_only_its_dictionary_witness :
  writes_courses (PATCH_enrollment "abc1234" "COMS W4153" 2025 "FALL" "dropped")
  = false /\
  courses (snd (serve (PATCH_enrollment "abc1234" "COMS W4153" 2025 "FALL" "dropped")
                  fixture_store))
  = courses fixture_store.
Proof.
  split; [reflexivity|].
  apply (proj1 (proj2 (proj2
           (request_writes_only_its_dictionary
              (PATCH_enrollment "abc1234" "COMS W4153" 2025 "FALL" "dropped")
              fixture_store)))).
  reflexivity.
Defined.

(* ------------------------------------------------------------------------- *)
(** * Listing by identity *)

Lemma course_matches_code code dept_id instructor min_credits max_credits c :
  course_matches (Some code) dept_id instructor min_credits max_credits c = true ->
  Course.code c = code.
Proof.
  intros M. apply course_matches_spec in M as (C & _). now apply C.
Qed.

Lemma enrollment_matches_identity uni course_code year term status e :
  enrollment_matches (Some uni) (Some course_code) (Some year) (Some term) status e
  = true ->
  identity_of e = (uni, course_code, year, term).
Proof.
  unfold enrollment_matches, identity_of. simpl.
  rewrite !andb_true_iff. intros ((((U & C) & Y) & T) & _).
  apply String.eqb_eq in U, C, T. apply Z.eqb_eq in Y. congruence.
Qed.

(** X10. In every reachable store, listing with the identity as criterion
    agrees with get: GET /courses?code=c returns at most the course that
    GET /courses/c returns (exactly it when no other criterion is given), and
    GET /enrollments with uni, course_code, year and term returns at most the
    enrollment stored under the composite key of those four values. *)
Theorem list_by_identity_agrees_with_get (s : store) :
  reachable s ->
  (forall code dept_id instructor min_credits max_credits,
      list_courses (Some code) dept_id instructor min_credits max_credits s
      = match PyDict.get code (courses s) with
        | Some c =>
            if course_matches (Some code) dept_id instructor min_credits
                 max_credits c
            then [c] else []
        | None => []
        end) /\
  (forall code,
      list_courses (Some code) None None None None s
      = match get_course code s with
        | Ok _ c => [c]
        | _ => []
        end) /\
  (forall uni course_code year term status,
      list_enrollments (Some uni) (Some course_code) (Some year) (Some term)
        status s
      = match PyDict.get (_enroll_key uni course_code year term) (enrollments s) with
        | Some e =>
            if enrollment_matches (Some uni) (Some course_code) (Some year)
                 (Some term) status e
            then [e] else []
        | None => []
        end).
Proof.
  intros R.
  destruct (reachable_invariant R) as ([Cc Ce] & _ & (_ & _ & Wc & We)).
  assert (forall code dept_id instructor min_credits max_credits,
             list_courses (Some code) dept_id instructor min_credits max_credits s
             = match PyDict.get code (courses s) with
               | Some c =>
                   if course_matches (Some code) dept_id instructor min_credits
                        max_credits c
                   then [c] else []
               | None => []
               end) as L.
  { intros. rewrite list_courses_filter.
    apply (filter_by_key Course.code); auto.
    intros c. apply course_matches_code. }
  split; [exact L|]. split.
  - intros code. rewrite L, get_course_eq.
    destruct (PyDict.get code (courses s)) as [c|] eqn:G; [|reflexivity].
    apply get_In, Cc in G. unfold course_matches. simpl.
    now rewrite <- G, String.eqb_refl.
  - intros. rewrite list_enrollments_filter.
    apply (filter_by_key key_of); auto.
    intros e M. apply enrollment_matches_identity in M.
    unfold key_of. unfold identity_of in M. now injection M as -> -> -> ->.
Qed.

Lemma list_by_identity_agrees_with_get_witness :
  reachable fixture_store /\
  list_courses (Some "COMS W4153") None None None None fixture_store
  = [cloud_computing].
Proof.
  split; [exact reachable_fixture_store|].
  rewrite (proj1 (proj2 (list_by_identity_agrees_with_get
                           reachable_fixture_store))).
  reflexivity.
Defined.

(* ------------------------------------------------------------------------- *)
(** * Updating and reading back *)

(** X11. When an update succeeds, it answers 200, and reading the same
    identity from the store it left returns the record the update returned;
    for an enrollment that record has the requested status. *)
Theorem update_then_get (s s' : store) :
  (forall uuid4 address_id update status_code r,
      update_address uuid4 address_id update s = (Ok status_code r, s') ->
      status_code = 200 /\ get_address address_id s' = Ok 200 r) /\
  (forall uuid4 person_id update status_code r,
      update_person uuid4 person_id update s = (Ok status_code r, s') ->
      status_code = 200 /\ get_person person_id s' = Ok 200 r) /\
  (forall uni course_code year term status status_code r,
      update_enrollment_status uni course_code year term status s
      = (Ok status_code r, s') ->
      status_code = 200 /\
      get_enrollment uni course_code year term s' = Ok 200 r /\
      Enrollment.status r = status).
Proof.
  repeat apply conj.
  - intros uuid4 address_id update status_code r U.
    destruct (update_address_store uuid4 address_id update s)
      as [E|(a & a' & _ & _ & E)].
    + unfold update_address in *.
      destruct (negb _); [discriminate|].
      destruct (PyDict.get _ _); [|discriminate].
      destruct (AddressRead.validate _ _); [|discriminate].
      injection U as U <-. split.
      * cbn [addresses set_addresses] in U. rewrite subscript_set in U.
        now injection U.
      * cbn [addresses set_addresses] in U. rewrite subscript_set in U.
        injection U as _ <-. rewrite get_address_eq. simpl.
        now rewrite get_set_same.
    + rewrite E in U. injection U as <- <- <-. split; [reflexivity|].
      rewrite get_address_eq. simpl. now rewrite get_set_same.
  - intros uuid4 person_id update status_code r U.
    destruct (update_person_store uuid4 person_id update s)
      as [E|(p & p' & _ & _ & E)].
    + unfold update_person in *.
      destruct (negb _); [discriminate|].
      destruct (PyDict.get _ _); [|discriminate].
      destruct (PersonRead.validate _ _); [|discriminate].
      injection U as U <-. split.
      * cbn [persons set_persons] in U. rewrite subscript_set in U.
        now injection U.
      * cbn [persons set_persons] in U. rewrite subscript_set in U.
        injection U as _ <-. rewrite get_person_eq. simpl.
        now rewrite get_set_same.
    + rewrite E in U. injection U as <- <- <-. split; [reflexivity|].
      rewrite get_person_eq. simpl. now rewrite get_set_same.
  - intros uni course_code year term status status_code r U.
    rewrite update_enrollment_status_store in U.
    destruct (PyDict.get _ _) as [e|]; [|discriminate].
    destruct (2 <=? len _); [|discriminate].
    injection U as <- <- <-. split; [reflexivity|]. split; [|reflexivity].
    rewrite get_enrollment_eq. simpl. now rewrite get_set_same.
Qed.

Lemma update_then_get_witness :
  update_enrollment_status "abc1234" "COMS W4153" 2025 "FALL" "dropped"
    fixture_store
  = (Ok 200 (with_status "dropped" abc_cloud_fall),
     snd (update_enrollment_status "abc1234" "COMS W4153" 2025 "FALL" "dropped"
            fixture_store)) /\
  get_enrollment "abc1234" "COMS W4153" 2025 "FALL"
    (snd (update_enrollment_status "abc1234" "COMS W4153" 2025 "FALL" "dropped"
            fixture_store))
  = Ok 200 (with_status "dropped" abc_cloud_fall).
Proof.
  split; [reflexivity|].
  apply (proj2 (proj2 (update_then_get fixture_store
           (snd (update_enrollment_status "abc1234" "COMS W4153" 2025 "FALL"
                   "dropped" fixture_store))))
           "abc1234" "COMS W4153" 2025 "FALL" "dropped" 200
           (with_status "dropped" abc_cloud_fall)).
  reflexivity.
Defined.

(* ------------------------------------------------------------------------- *)
(** * Creating *)

(** X12. A create succeeds exactly when the identity is not yet a key of its
    dictionary; it then answers 201 with the payload itself and stores it as
    the last entry, the entries already there staying as they are. *)
Theorem create_succeeds_iff_identity_is_new (s : store) :
  (forall uuid4 address,
      is_ok (fst (create_address uuid4 address s))
      = negb (PyDict.mem (Address.id address) (addresses s)) /\
      (PyDict.mem (Address.id address) (addresses s) = false ->
       fst (create_address uuid4 address s) = Ok 201 address /\
       addresses (snd (create_address uuid4 address s))
       = addresses s ++ [(Address.id address, address)])) /\
  (forall course,
      is_ok (fst (create_course course s))
      = negb (PyDict.mem (Course.code course) (courses s)) /\
      (PyDict.mem (Course.code course) (courses s) = false ->
       fst (create_course course s) = Ok 201 course /\
       courses (snd (create_course course s))
       = courses s ++ [(Course.code course, course)])) /\
  (forall enrollment,
      is_ok (fst (create_enrollment enrollment s))
      = negb (PyDict.mem (key_of enrollment) (enrollments s)) /\
      (PyDict.mem (key_of enrollment) (enrollments s) = false ->
       fst (create_enrollment enrollment s) = Ok 201 enrollment /\
       enrollments (snd (create_enrollment enrollment s))
       = enrollments s ++ [(key_of enrollment, enrollment)])).
Proof.
  repeat apply conj.
  - intros uuid4 address. split.
    + destruct (PyDict.mem (Address.id address) (addresses s)) eqn:M.
      * unfold create_address. now rewrite M.
      * now rewrite create_address_fresh.
    + intros M. rewrite create_address_fresh by exact M. simpl.
      now rewrite set_absent.
  - intros course. rewrite create_course_store. split.
    + now destruct (PyDict.mem _ _).
    + intros M. rewrite M. simpl. now rewrite set_absent.
  - intros enrollment. rewrite create_enrollment_store. split.
    + now destruct (PyDict.mem _ _).
    + intros M. rewrite M. simpl. now rewrite set_absent.
Qed.

Lemma create_succeeds_iff_identity_is_new_witness :
  PyDict.mem 12%N (addresses fixture_store) = false /\
  fst (create_address 5%N
         (Address.mk 12%N "116th and Broadway" "New York" "NY" "10027" "USA")
         fixture_store)
  = Ok 201 (Address.mk 12%N "116th and Broadway" "New York" "NY" "10027" "USA").
Proof.
  split; [reflexivity|].
  apply (proj2 (proj1 (create_succeeds_iff_identity_is_new fixture_store) 5%N
                  (Address.mk 12%N "116th and Broadway" "New York" "NY" "10027"
                     "USA"))).
  reflexivity.
Defined.

(* ------------------------------------------------------------------------- *)
(** * Partial updates that supply nothing *)

Lemma set_addresses_same (s : store) : set_addresses (addresses s) s = s.
Proof. now destruct s. Qed.

Lemma set_persons_same (s : store) : set_persons (persons s) s = s.
Proof. now destruct s. Qed.

Lemma PersonRead_validate_model_dump (uuid4 : UUID) (p : PersonRead.t) :
  PersonRead.validate uuid4 (PersonRead.model_dump p) = Some p.
Proof. destruct p. reflexivity. Qed.

Lemma AddressUpdate_validate_nothing (body : fields) :
  (forall f, among Address_attributes f = true -> PyDict.get f body = None) ->
  AddressUpdate.validate body
  = Some (AddressUpdate.mk Unset Unset Unset Unset Unset).
Proof.
  intros N. unfold AddressUpdate.validate, get_upd_str.
  now rewrite (N "street"), (N "city"), (N "state"), (N "postal_code"),
    (N "country") by reflexivity.
Qed.

Lemma PersonUpdate_validate_nothing (body : fields) :
  (forall f, among Person_attributes f = true -> PyDict.get f body = None) ->
  PersonUpdate.validate body
  = Some (PersonUpdate.mk Unset Unset Unset Unset Unset Unset Unset).
Proof.
  intros N. unfold PersonUpdate.validate, get_upd_str, get_upd_addresses.
  now rewrite (N "uni"), (N "first_name"), (N "last_name"), (N "email"),
    (N "phone"), (N "birth_date"), (N "addresses") by reflexivity.
Qed.

(** X13. PATCH with a body that supplies no attribute of the model (an empty
    body, or one with only other keys such as [id]) answers 200 with the
    stored record and leaves the store exactly as it was. *)
Theorem patch_without_attributes_changes_nothing
  (uuid4 : UUID) (body : fields) (s : store) :
  ((forall f, among Address_attributes f = true -> PyDict.get f body = None) ->
   forall address_id a,
     PyDict.get address_id (addresses s) = Some a ->
     patch_address uuid4 address_id body s = (Ok 200 a, s)) /\
  ((forall f, among Person_attributes f = true -> PyDict.get f body = None) ->
   forall person_id p,
     PyDict.get person_id (persons s) = Some p ->
     patch_person uuid4 person_id body s = (Ok 200 p, s)).
Proof.
  split.
  - intros N address_id a G. unfold patch_address, with_body.
    rewrite (AddressUpdate_validate_nothing body N).
    unfold update_address, PyDict.mem. rewrite G. cbn [negb]. cbv zeta.
    change (AddressUpdate.model_dump_exclude_unset
              (AddressUpdate.mk Unset Unset Unset Unset Unset)) with (@nil (string * value)).
    change (PyDict.update (AddressRead.model_dump a) []) with (AddressRead.model_dump a).
    rewrite Address_validate_model_dump, (set_same_value _ _ G),
      set_addresses_same.
    unfold subscript. now rewrite G.
  - intros N person_id p G. unfold patch_person, with_body.
    rewrite (PersonUpdate_validate_nothing body N).
    unfold update_person, PyDict.mem. rewrite G. cbn [negb]. cbv zeta.
    change (PersonUpdate.model_dump_exclude_unset
              (PersonUpdate.mk Unset Unset Unset Unset Unset Unset Unset))
      with (@nil (string * value)).
    change (PyDict.update (PersonRead.model_dump p) []) with (PersonRead.model_dump p).
    rewrite PersonRead_validate_model_dump, (set_same_value _ _ G),
      set_persons_same.
    unfold subscript. now rewrite G.
Qed.

Lemma patch_without_attributes_changes_nothing_witness :
  (forall f, among Address_attributes f = true ->
             PyDict.get f [("id", VUuid 99%N)] = None) /\
  PyDict.get 11%N (addresses fixture_store) = Some low_library /\
  patch_address 5%N 11%N [("id", VUuid 99%N)] fixture_store
  = (Ok 200 low_library, fixture_store).
Proof.
  assert (forall f, among Address_attributes f = true ->
                    PyDict.get f [("id", VUuid 99%N)] = None) as N.
  { intros f A. simpl.
    destruct (String.eqb_spec f "id") as [->|D]; [discriminate A|reflexivity]. }
  assert (PyDict.get 11%N (addresses fixture_store) = Some low_library) as G
    by reflexivity.
  split; [exact N|]. split; [exact G|].
  exact (proj1 (patch_without_attributes_changes_nothing 5%N
                  [("id", VUuid 99%N)] fixture_store) N 11%N low_library G).
Defined.

(* ------------------------------------------------------------------------- *)
(** * Credit bounds at their edges *)

Lemma filter_nothing {A : Type} (p : A -> bool) (l : list A) :
  (forall x, In x l -> p x = false) -> filter p l = [].
Proof.
  induction l as [|x l IH]; simpl; intros N; [reflexivity|].
  rewrite (N x) by auto. auto.
Qed.

(** X14. GET /courses with a minimum above the maximum returns nothing. In a
    reachable store a minimum above 6 or a maximum below 0 returns nothing,
    and bounds that enclose 0..6 select what the same request without bounds
    selects. *)
Theorem credit_bounds_at_the_edges
  (code dept_id instructor : option string) (lo hi : Z) (s : store) :
  (hi < lo ->
   list_courses code dept_id instructor (Some lo) (Some hi) s = []) /\
  (reachable s -> 6 < lo ->
   forall max_credits,
     list_courses code dept_id instructor (Some lo) max_credits s = []) /\
  (reachable s -> hi < 0 ->
   forall min_credits,
     list_courses code dept_id instructor min_credits (Some hi) s = []) /\
  (reachable s -> lo <= 0 -> 6 <= hi ->
   list_courses code dept_id instructor (Some lo) (Some hi) s
   = list_courses code dept_id instructor None None s).
Proof.
  assert (forall R : reachable s, forall c,
             In c (PyDict.values (courses s)) -> 0 <= Course.credits c <= 6) as V.
  { intros R c I. destruct (reachable_invariant R) as (_ & [Vc _] & _).
    apply In_values in I as [k I]. eauto. }
  repeat apply conj.
  - intros L. rewrite list_courses_filter. apply filter_nothing.
    intros c _. unfold course_matches. simpl.
    destruct (Z.leb_spec lo (Course.credits c)), (Z.leb_spec (Course.credits c) hi);
      rewrite ?andb_false_r; try reflexivity; lia.
  - intros R L max_credits. rewrite list_courses_filter. apply filter_nothing.
    intros c I. specialize (V R c I). unfold course_matches. simpl.
    destruct (Z.leb_spec lo (Course.credits c)); [lia|].
    now rewrite andb_false_r.
  - intros R L min_credits. rewrite list_courses_filter. apply filter_nothing.
    intros c I. specialize (V R c I). unfold course_matches. simpl.
    destruct (Z.leb_spec (Course.credits c) hi); [lia|].
    now rewrite andb_false_r.
  - intros R L H. rewrite !list_courses_filter. apply filter_ext_in.
    intros c I. specialize (V R c I). unfold course_matches. simpl.
    destruct (Z.leb_spec lo (Course.credits c)), (Z.leb_spec (Course.credits c) hi);
      try lia. now rewrite !andb_true_r.
Qed.

Lemma credit_bounds_at_the_edges_witness :
  4 < 5 /\ list_courses None None None (Some 5) (Some 4) fixture_store = [].
Proof.
  assert (4 < 5) as L by lia.
  split; [exact L|].
  exact (proj1 (credit_bounds_at_the_edges None None None 5 4 fixture_store) L).
Defined.

(* ------------------------------------------------------------------------- *)
(** * Dumping and validating the models of my_models.py *)

Ltac model_field n :=
  match goal with
  | E : get_str n ?d = Some _ |- _ =>
      unfold get_str in E;
      destruct (PyDict.get n d) as [[]|]; try discriminate E; injection E as <-
  | E : get_int n ?d = Some _ |- _ =>
      unfold get_int in E;
      destruct (PyDict.get n d) as [[]|]; try discriminate E; injection E as <-
  end.

Lemma Course_validate_dump (d : fields) (c : Course.t) (f : string) :
  Course.validate d = Some c ->
  PyDict.get f (Course.model_dump c)
  = if among Course_fields f then PyDict.get f d else None.
Proof.
  unfold Course.validate. intros V. inv_validate V. injection V as <-.
  unfold Course.model_dump, among, Course_fields.
  cbn [Course.code Course.title Course.instructor Course.credits Course.dept_id
       existsb PyDict.get key_eqb Hashable_string].
  field_cases f model_field. reflexivity.
Qed.

Lemma Enrollment_validate_dump (d : fields) (e : Enrollment.t) (f : string) :
  Enrollment.validate d = Some e ->
  PyDict.get f (Enrollment.model_dump e)
  = if among Enrollment_fields f then PyDict.get f d else None.
Proof.
  unfold Enrollment.validate. intros V. inv_validate V. injection V as <-.
  unfold Enrollment.model_dump, among, Enrollment_fields.
  cbn [Enrollment.uni Enrollment.course_code Enrollment.year Enrollment.term
       Enrollment.status existsb PyDict.get key_eqb Hashable_string].
  field_cases f model_field. reflexivity.
Qed.

(** X15. Dumping a Course or an Enrollment and validating the dump gives the
    record back exactly when the record satisfies the constraints of its
    model, and fails otherwise; a record obtained by validating a body
    satisfies them, validates again from its own dump, and its dump has, for
    each field of the model, the value the body has, and no other key. *)
Theorem model_dump_validate_round_trip :
  (forall c,
      Course.validate (Course.model_dump c)
      = if Course_valid c then Some c else None) /\
  (forall e,
      Enrollment.validate (Enrollment.model_dump e)
      = if Enrollment_valid e then Some e else None) /\
  (forall d c,
      Course.validate d = Some c ->
      Course.validate (Course.model_dump c) = Some c /\
      forall f, PyDict.get f (Course.model_dump c)
                = if among Course_fields f then PyDict.get f d else None) /\
  (forall d e,
      Enrollment.validate d = Some e ->
      Enrollment.validate (Enrollment.model_dump e) = Some e /\
      forall f, PyDict.get f (Enrollment.model_dump e)
                = if among Enrollment_fields f then PyDict.get f d else None).
Proof.
  assert (forall c, Course.validate (Course.model_dump c)
                    = if Course_valid c then Some c else None) as Rc
    by (intros []; reflexivity).
  assert (forall e, Enrollment.validate (Enrollment.model_dump e)
                    = if Enrollment_valid e then Some e else None) as Re
    by (intros []; reflexivity).
  split; [exact Rc|]. split; [exact Re|]. split.
  - intros d c V. split.
    + rewrite Rc. unfold Course_valid.
      destruct (Course_validate_credits _ V) as [L U].
      apply Z.leb_le in L, U. now rewrite L, U.
    + intros f. now apply Course_validate_dump.
  - intros d e V. split.
    + rewrite Re. unfold Enrollment_valid.
      pose proof (Enrollment_validate_uni _ V) as L.
      apply Z.leb_le in L. now rewrite L.
    + intros f. now apply Enrollment_validate_dump.
Qed.

Lemma model_dump_validate_round_trip_witness :
  Enrollment.validate
    [("status", VStr "enrolled"); ("term", VStr "FALL"); ("year", VInt 2025);
     ("course_code", VStr "COMS W4153"); ("uni", VStr "abc1234");
     ("note", VStr "extra")]
  = Some abc_cloud_fall /\
  Enrollment.validate (Enrollment.model_dump abc_cloud_fall) = Some abc_cloud_fall.
Proof.
  split; [reflexivity|].
  apply (proj2 (proj2 (proj2 model_dump_validate_round_trip))
           [("status", VStr "enrolled"); ("term", VStr "FALL"); ("year", VInt 2025);
            ("course_code", VStr "COMS W4153"); ("uni", VStr "abc1234");
            ("note", VStr "extra")]
           abc_cloud_fall).
  reflexivity.
Defined.

(* ------------------------------------------------------------------------- *)
(** * Posting the same body again *)

Lemma Address_validate_given_id (uuid4 uuid4' : UUID) (d : fields) (i : UUID) :
  PyDict.get "id" d = Some (VUuid i) ->
  Address_validate uuid4' d = Address_validate uuid4 d.
Proof. unfold Address_validate, get_uuid. now intros ->. Qed.

(** X16. A second POST of a body that validates is never accepted for a
    course, for an enrollment, or for an address whose body gives its id: it
    is answered with 400 and leaves the store as the first POST left it,
    whether or not the first POST itself succeeded. *)
Theorem second_post_of_same_body_is_rejected (body : fields) (s : store) :
  (forall c,
      Course.validate body = Some c ->
      post_courses body (snd (post_courses body s))
      = (HTTPException 400 "Course with this code already exists",
         snd (post_courses body s))) /\
  (forall e,
      Enrollment.validate body = Some e ->
      post_enrollments body (snd (post_enrollments body s))
      = (HTTPException 400
           "Enrollment already exists for this (uni, course, year, term)",
         snd (post_enrollments body s))) /\
  (forall uuid4 uuid4' i a,
      PyDict.get "id" body = Some (VUuid i) ->
      AddressCreate.validate uuid4 body = Some a ->
      post_addresses uuid4' body (snd (post_addresses uuid4 body s))
      = (HTTPException 400 "Address with this ID already exists",
         snd (post_addresses uuid4 body s))).
Proof.
  repeat apply conj.
  - intros c V. unfold post_courses, with_body. rewrite V.
    rewrite !create_course_store.
    destruct (PyDict.mem (Course.code c) (courses s)) eqn:M; simpl.
    + now rewrite M.
    + now rewrite mem_set_same.
  - intros e V. unfold post_enrollments, with_body. rewrite V.
    rewrite !create_enrollment_store.
    destruct (PyDict.mem (key_of e) (enrollments s)) eqn:M; simpl.
    + now rewrite M.
    + now rewrite mem_set_same.
  - intros uuid4 uuid4' i a G V. unfold post_addresses, with_body.
    rewrite (Address_validate_given_id uuid4 uuid4' body G), V.
    rewrite create_address_store.
    destruct (PyDict.mem (Address.id a) (addresses s)) eqn:M.
    + unfold create_address. now rewrite M.
    + unfold create_address. cbn [addresses set_addresses].
      now rewrite mem_set_same.
Qed.

Lemma second_post_of_same_body_is_rejected_witness :
  Course.validate
    (Course.model_dump (Course.mk "COMS W4111" "Databases" "Someone" 3 "COMS"))
  = Some (Course.mk "COMS W4111" "Databases" "Someone" 3 "COMS") /\
  fst (post_courses
         (Course.model_dump (Course.mk "COMS W4111" "Databases" "Someone" 3 "COMS"))
         (snd (post_courses
                 (Course.model_dump
                    (Course.mk "COMS W4111" "Databases" "Someone" 3 "COMS"))
                 fixture_store)))
  = HTTPException 400 "Course with this code already exists".
Proof.
  split; [reflexivity|].
  rewrite (proj1 (second_post_of_same_body_is_rejected
                    (Course.model_dump
                       (Course.mk "COMS W4111" "Databases" "Someone" 3 "COMS"))
                    fixture_store)
             (Course.mk "COMS W4111" "Databases" "Someone" 3 "COMS") eq_refl).
  reflexivity.
Defined.

(** X17. POST /persons has no such rejection: posting the same body twice
    with two different generated ids that are new to the store answers 201
    twice and leaves two persons, last in the listing, that differ only in
    their id. *)
Theorem second_post_of_same_person_is_accepted
  (uuid4 uuid4' : UUID) (body : fields) (person : PersonCreate.t) (s : store) :
  PersonCreate.validate body = Some person ->
  uuid4 <> uuid4' ->
  PyDict.mem uuid4 (persons s) = false ->
  PyDict.mem uuid4' (persons s) = false ->
  fst (post_persons uuid4 body s) = Ok 201 (person_read uuid4 person) /\
  fst (post_persons uuid4' body (snd (post_persons uuid4 body s)))
  = Ok 201 (person_read uuid4' person) /\
  list_persons None None None None None None None None
    (snd (post_persons uuid4' body (snd (post_persons uuid4 body s))))
  = list_persons None None None None None None None None s
    ++ [person_read uuid4 person; person_read uuid4' person].
Proof.
  intros V D M M'.
  assert (forall u t, post_persons u body t
                      = (Ok 201 (person_read u person),
                         set_persons (PyDict.set u (person_read u person)
                                        (persons t)) t)) as P.
  { intros u t. unfold post_persons, with_body, create_person. rewrite V.
    now rewrite PersonRead_validate_PersonCreate. }
  rewrite !P. cbn [fst snd persons set_persons].
  split; [reflexivity|]. split; [reflexivity|].
  unfold list_persons. cbn [where_ persons set_persons].
  rewrite values_set_absent.
  - rewrite values_set_absent by exact M. now rewrite <- app_assoc.
  - unfold PyDict.mem. rewrite get_set_other by congruence.
    unfold PyDict.mem in M'. exact M'.
Qed.

Lemma second_post_of_same_person_is_accepted_witness :
  PersonCreate.validate (PersonCreate.model_dump ada) = Some ada /\
  22%N <> 23%N /\
  PyDict.mem 22%N (persons fixture_store) = false /\
  PyDict.mem 23%N (persons fixture_store) = false /\
  list_persons None None None None None None None None
    (snd (post_persons 23%N (PersonCreate.model_dump ada)
            (snd (post_persons 22%N (PersonCreate.model_dump ada)
                    fixture_store))))
  = [person_read 21%N ada; person_read 22%N ada; person_read 23%N ada].
Proof.
  assert (22%N <> 23%N) as D by discriminate.
  split; [reflexivity|]. split; [exact D|].
  split; [reflexivity|]. split; [reflexivity|].
  destruct (@second_post_of_same_person_is_accepted 22%N 23%N
              (PersonCreate.model_dump ada) ada fixture_store
              eq_refl D eq_refl eq_refl) as (_ & _ & L).
  rewrite L. reflexivity.
Defined.

(* ------------------------------------------------------------------------- *)
(** * Updating the status twice *)

(** X18. For the status of an enrollment the last update wins: two updates on
    the same path give the answer and the store of the second update alone,
    so repeating an update changes nothing further. *)
Theorem status_update_last_write_wins
  (uni course_code : string) (year : Z) (term status1 status2 : string)
  (s : store) :
  update_enrollment_status uni course_code year term status2
    (snd (update_enrollment_status uni course_code year term status1 s))
  = update_enrollment_status uni course_code year term status2 s.
Proof.
  rewrite !update_enrollment_status_store.
  destruct (PyDict.get _ (enrollments s)) as [e|] eqn:G; simpl.
  - destruct (2 <=? len (Enrollment.uni e)) eqn:L; simpl.
    + rewrite get_set_same. simpl. rewrite L. now rewrite set_set.
    + now rewrite G, L.
  - now rewrite G.
Qed.

(* ------------------------------------------------------------------------- *)
(** * Which persons a listing returns *)

Lemma existsb_address (p : Address.t -> bool) (l : list Address.t) :
  existsb p l = true <-> exists a, In a l /\ p a = true.
Proof. apply existsb_exists. Qed.

(** X19. GET /persons returns a person exactly when the person is stored,
    each supplied scalar criterion equals the person's field (birth_date
    compared as text), and for a supplied city, and separately for a supplied
    country, at least one of the person's addresses has it: the two may be
    found in two different addresses, and a person without addresses is never
    returned when city or country is supplied. *)
Theorem list_persons_membership
  (uni first_name last_name email phone birth_date city country : option string)
  (s : store) (p : PersonRead.t) :
  In p (list_persons uni first_name last_name email phone birth_date city
          country s) <->
  In p (PyDict.values (persons s)) /\
  (forall q, uni = Some q -> PersonRead.uni p = q) /\
  (forall q, first_name = Some q -> PersonRead.first_name p = q) /\
  (forall q, last_name = Some q -> PersonRead.last_name p = q) /\
  (forall q, email = Some q -> PersonRead.email p = q) /\
  (forall q, phone = Some q -> PersonRead.phone p = q) /\
  (forall q, birth_date = Some q -> str_date (PersonRead.birth_date p) = q) /\
  (forall q, city = Some q ->
             exists a, In a (PersonRead.addresses p) /\ Address.city a = q) /\
  (forall q, country = Some q ->
             exists a, In a (PersonRead.addresses p) /\ Address.country a = q).
Proof.
  rewrite list_persons_filter, filter_In. unfold person_matches.
  rewrite !andb_true_iff, !holds_spec.
  setoid_rewrite existsb_address.
  setoid_rewrite String.eqb_eq.
  tauto.
Qed.

Lemma list_persons_membership_witness :
  let paris := Address.mk 31%N "1 Rue de Rivoli" "Paris" "IDF" "75001" "France" in
  let body :=
    PersonCreate.model_dump
      (PersonCreate.mk "gh1906" "Grace" "Hopper" "grace@example.org"
         "+1-212-555-0102" "1906-12-09" [paris; low_library]) in
  In (PersonRead.mk 40%N "gh1906" "Grace" "Hopper" "grace@example.org"
        "+1-212-555-0102" "1906-12-09" [paris; low_library])
    (list_persons None None None None None None (Some "Paris") (Some "USA")
       (snd (post_persons 40%N body fixture_store))).
Proof.
  cbv zeta.
  apply list_persons_membership.
  split; [right; left; reflexivity|].
  repeat split; try discriminate.
  - intros q [= <-]. eexists. split; [left; reflexivity|reflexivity].
  - intros q [= <-]. eexists. split; [right; left; reflexivity|reflexivity].
Defined.

(* ------------------------------------------------------------------------- *)
(** * Updating under an identity that no stored record has *)

Lemma absent_id_absent_key {V : Type} (idf : V -> UUID) (d : dict UUID V) (i : UUID) :
  (forall k v, In (k, v) d -> k = idf v) ->
  (forall v, In v (PyDict.values d) -> idf v <> i) ->
  PyDict.mem i d = false.
Proof.
  intros C N. unfold PyDict.mem.
  destruct (PyDict.get i d) as [v|] eqn:G; [|reflexivity].
  apply get_In in G. exfalso.
  apply (N v); [apply In_values; eauto|]. symmetry. auto.
Qed.

Lemma absent_identity_absent_key
  (s : store) (uni course_code : string) (year : Z) (term : string) :
  reachable s ->
  pipe_free (uni, course_code, year, term) ->
  (forall e, In e (PyDict.values (enrollments s)) -> pipe_free (identity_of e)) ->
  (forall e, In e (PyDict.values (enrollments s)) ->
             identity_of e <> (uni, course_code, year, term)) ->
  PyDict.mem (_enroll_key uni course_code year term) (enrollments s) = false.
Proof.
  intros R [Pu Pc] P N. unfold PyDict.mem.
  destruct (PyDict.get _ (enrollments s)) as [e|] eqn:G; [|reflexivity].
  apply get_In in G. exfalso.
  destruct (reachable_invariant R) as ([_ Ce] & _).
  assert (In e (PyDict.values (enrollments s))) as I
    by (apply In_values; eauto).
  apply (N e I). destruct (P e I) as [Pu' Pc'].
  apply Ce in G. unfold key_of in G. symmetry in G.
  destruct (@enroll_key_inj (Enrollment.uni e) (Enrollment.course_code e)
              (Enrollment.year e) (Enrollment.term e)
              uni course_code year term Pu' Pc' Pu Pc G)
    as (E1 & E2 & E3 & E4).
  unfold identity_of. now rewrite E1, E2, E3, E4.
Qed.

(** C6 (as amended). An update under an id or a composite key that is not a
    key of its dictionary raises HTTPException 404 and returns the store as it
    was. In a reachable store this is the case for a Person or an Address
    whenever no stored record has the requested id, and for the status of an
    Enrollment whenever no stored enrollment has the requested uni,
    course_code, year and term, provided that neither the requested uni and
    course_code nor those of the stored enrollments contain the delimiter. *)
Theorem update_absent_identity_404 (s : store) :
  (forall uuid4 person_id update,
      PyDict.mem person_id (persons s) = false ->
      update_person uuid4 person_id update s
      = (HTTPException 404 "Person not found", s)) /\
  (forall uuid4 address_id update,
      PyDict.mem address_id (addresses s) = false ->
      update_address uuid4 address_id update s
      = (HTTPException 404 "Address not found", s)) /\
  (forall uni course_code year term status,
      PyDict.mem (_enroll_key uni course_code year term) (enrollments s) = false ->
      update_enrollment_status uni course_code year term status s
      = (HTTPException 404 "Enrollment not found", s)) /\
  (reachable s ->
   (forall uuid4 person_id update,
       (forall p, In p (PyDict.values (persons s)) ->
                  PersonRead.id p <> person_id) ->
       update_person uuid4 person_id update s
       = (HTTPException 404 "Person not found", s)) /\
   (forall uuid4 address_id update,
       (forall a, In a (PyDict.values (addresses s)) ->
                  Address.id a <> address_id) ->
       update_address uuid4 address_id update s
       = (HTTPException 404 "Address not found", s)) /\
   (forall uni course_code year term status,
       pipe_free (uni, course_code, year, term) ->
       (forall e, In e (PyDict.values (enrollments s)) ->
                  pipe_free (identity_of e)) ->
       (forall e, In e (PyDict.values (enrollments s)) ->
                  identity_of e <> (uni, course_code, year, term)) ->
       update_enrollment_status uni course_code year term status s
       = (HTTPException 404 "Enrollment not found", s))).
Proof.
  destruct (update_absent_key_404 s) as (Kp & Ka & Ke).
  split; [exact Kp|]. split; [exact Ka|]. split; [exact Ke|].
  intros R. destruct (reachable_id_coherent R) as [Ca Cp].
  split; [|split].
  - intros uuid4 person_id update N. apply Kp.
    exact (absent_id_absent_key PersonRead.id _ Cp N).
  - intros uuid4 address_id update N. apply Ka.
    exact (absent_id_absent_key Address.id _ Ca N).
  - intros uni course_code year term status F P N. apply Ke.
    now apply absent_identity_absent_key.
Qed.

Lemma update_absent_identity_404_witness :
  reachable fixture_store /\
  pipe_free ("abc1234", "COMS W4153", 2024, "FALL") /\
  (forall e, In e (PyDict.values (enrollments fixture_store)) ->
             pipe_free (identity_of e)) /\
  (forall e, In e (PyDict.values (enrollments fixture_store)) ->
             identity_of e <> ("abc1234", "COMS W4153", 2024, "FALL")) /\
  update_enrollment_status "abc1234" "COMS W4153" 2024 "FALL" "dropped" fixture_store
  = (HTTPException 404 "Enrollment not found", fixture_store).
Proof.
  assert (pipe_free ("abc1234", "COMS W4153", 2024, "FALL")) as F
    by (split; reflexivity).
  assert (forall e, In e (PyDict.values (enrollments fixture_store)) ->
                    pipe_free (identity_of e)) as P
    by (intros e [<-|[]]; split; reflexivity).
  assert (forall e, In e (PyDict.values (enrollments fixture_store)) ->
                    identity_of e <> ("abc1234", "COMS W4153", 2024, "FALL")) as N
    by (intros e [<-|[]]; discriminate).
  split; [exact reachable_fixture_store|]. split; [exact F|].
  split; [exact P|]. split; [exact N|].
  exact (proj2 (proj2 (proj2 (proj2 (proj2 (update_absent_identity_404 fixture_store)))
                         reachable_fixture_store))
           "abc1234" "COMS W4153" 2024 "FALL" "dropped" F P N).
Defined.

(** C6 (as stated) fails for enrollments: in the store reached by one POST of
    the enrollment (ab|c, d, 2025, FALL), no stored enrollment has the
    identity (ab, c|d, 2025, FALL), yet the status update on that identity
    answers 200 and rewrites the stored enrollment. *)
Lemma update_absent_identity_rewrites_other :
  reachable piped_store /\
  PyDict.values (enrollments piped_store) = [piped_enrollment] /\
  identity_of piped_enrollment <> ("ab", "c|d", 2025, "FALL") /\
  fst (update_enrollment_status "ab" "c|d" 2025 "FALL" "dropped" piped_store)
  = Ok 200 (Enrollment.mk "ab|c" "d" 2025 "FALL" "dropped") /\
  PyDict.values
    (enrollments
       (snd (update_enrollment_status "ab" "c|d" 2025 "FALL" "dropped"
               piped_store)))
  = [Enrollment.mk "ab|c" "d" 2025 "FALL" "dropped"] /\
  snd (update_enrollment_status "ab" "c|d" 2025 "FALL" "dropped" piped_store)
  <> piped_store.
Proof.
  split; [apply reachable_run; constructor|].
  split; [reflexivity|]. split; [discriminate|].
  split; [reflexivity|]. split; [reflexivity|].
  vm_compute. discriminate.
Qed.
